(** * PEM key import (pkix/pem_import.c)

    A shallow embedding of the import routines of [pkix/pem_import.c].
    The routines are glue code: they call the armor decoder, the allocator,
    the decryption primitives and the structural parsers, none of which live
    in this file.  Those collaborators are taken as parameters (the classes
    [Types] and [Collaborators]); every routine is written against them and
    records each collaborator call in a log, so that statements about the
    order of label attempts, about decryption and about cleanup can be made
    on what the routine does. *)

From Stdlib Require Import String List NArith Bool Lia.
Import ListNotations.
Open Scope string_scope.
Open Scope N_scope.

(** ** Error codes *)

(** The codes of [error_t] that [pem_import.c] names, and [ERROR_CODE] for
    every other code a collaborator may report (syntax, tag, length, ...). *)
Inductive error_t : Type :=
| NO_ERROR
| ERROR_INVALID_PARAMETER
| ERROR_OUT_OF_MEMORY
| ERROR_END_OF_FILE
| ERROR_DECRYPTION_FAILED
| ERROR_WRONG_IDENTIFIER
| ERROR_NOT_IMPLEMENTED
| ERROR_CODE (code : positive).

(** [if(!error)] *)
Definition is_ok (e : error_t) : bool :=
  match e with NO_ERROR => true | _ => false end.

Definition error_eq_dec : forall a b : error_t, {a = b} + {a <> b}.
Proof. decide equality. apply Pos.eq_dec. Defined.

(** ** Build configuration *)

(** The preprocessor switches read by the file; [true] is [ENABLED]. *)
Record Config : Type := {
  PEM_ENCRYPTED_KEY_SUPPORT : bool;
  RSA_SUPPORT : bool;
  DSA_SUPPORT : bool;
  EC_SUPPORT : bool;
  ED25519_SUPPORT : bool;
  ED448_SUPPORT : bool;
  DH_SUPPORT : bool
}.

Definition all_enabled : Config :=
  {| PEM_ENCRYPTED_KEY_SUPPORT := true; RSA_SUPPORT := true;
     DSA_SUPPORT := true; EC_SUPPORT := true; ED25519_SUPPORT := true;
     ED448_SUPPORT := true; DH_SUPPORT := true |}.

Definition no_encrypted_keys : Config :=
  {| PEM_ENCRYPTED_KEY_SUPPORT := false; RSA_SUPPORT := true;
     DSA_SUPPORT := true; EC_SUPPORT := true; ED25519_SUPPORT := true;
     ED448_SUPPORT := true; DH_SUPPORT := true |}.

(** ** Data *)

Definition bytes := list Byte.byte.

(** [X509KeyType] (x509_common.h). *)
Inductive X509KeyType : Type :=
| X509_KEY_TYPE_UNKNOWN
| X509_KEY_TYPE_RSA
| X509_KEY_TYPE_RSA_PSS
| X509_KEY_TYPE_DSA
| X509_KEY_TYPE_EC
| X509_KEY_TYPE_X25519
| X509_KEY_TYPE_ED25519
| X509_KEY_TYPE_X448
| X509_KEY_TYPE_ED448.

(** The types declared in headers outside this file.  [zero_*] is the value
    a field has after [osMemset(.., 0, ..)]. *)
Class Types : Type := {
  Mpi : Type;
  PemString : Type;
  PemHeader : Type;
  RsaPublicKey : Type;
  RsaPrivateKey : Type;
  DsaPublicKey : Type;
  DsaPrivateKey : Type;
  EcDomainParameters : Type;
  EcPublicKey : Type;
  EcPrivateKey : Type;
  EddsaPublicKey : Type;
  EddsaPrivateKey : Type;
  X509RsaPublicKey : Type;
  X509DsaParameters : Type;
  X509EcParameters : Type;
  X509SubjectPublicKeyInfoRest : Type;
  Pkcs8RsaPrivateKey : Type;
  Pkcs8DsaPrivateKey : Type;
  Pkcs8EcPrivateKey : Type;
  Pkcs8PrivateKeyInfoRest : Type;
  X509AlgoId : Type;
  zero_X509RsaPublicKey : X509RsaPublicKey;
  zero_X509EcParameters : X509EcParameters;
  zero_X509SubjectPublicKeyInfoRest : X509SubjectPublicKeyInfoRest;
  zero_Pkcs8RsaPrivateKey : Pkcs8RsaPrivateKey;
  zero_X509DsaParameters : X509DsaParameters;
  zero_Pkcs8DsaPrivateKey : Pkcs8DsaPrivateKey;
  zero_Pkcs8EcPrivateKey : Pkcs8EcPrivateKey;
  zero_Pkcs8PrivateKeyInfoRest : Pkcs8PrivateKeyInfoRest;
  (** [header.procType.type] *)
  procType_type : PemHeader -> PemString;
  (** width of [size_t] on the target, in bits *)
  size_t_bits : N
}.

Section Structures.
Context {T : Types}.

(** [DhParameters]: the two fields the file touches. *)
Record DhParameters : Type := {
  params_p : Mpi;
  params_g : Mpi
}.

(** [Asn1Tag]: [value] is the view of the buffer from the tag's content on. *)
Record Asn1Tag : Type := {
  tag_value : bytes;
  tag_length : N;
  tag_totalLength : N
}.

(** [X509SubjectPublicKeyInfo]: the fields the file reads or writes, the
    others kept together in [spki_rest]. *)
Record X509SubjectPublicKeyInfo : Type := {
  spki_oid : bytes;
  spki_oidLen : N;
  spki_rsaPublicKey : X509RsaPublicKey;
  spki_ecParams : X509EcParameters;
  spki_rest : X509SubjectPublicKeyInfoRest
}.

(** [Pkcs8PrivateKeyInfo], likewise. *)
Record Pkcs8PrivateKeyInfo : Type := {
  pki_oid : bytes;
  pki_oidLen : N;
  pki_rsaPrivateKey : Pkcs8RsaPrivateKey;
  pki_dsaParams : X509DsaParameters;
  pki_dsaPrivateKey : Pkcs8DsaPrivateKey;
  pki_ecParams : X509EcParameters;
  pki_ecPrivateKey : Pkcs8EcPrivateKey;
  pki_rest : Pkcs8PrivateKeyInfoRest
}.

(** [Pkcs8EncryptedPrivateKeyInfo] *)
Record Pkcs8EncryptedPrivateKeyInfo : Type := {
  encryptionAlgo : X509AlgoId;
  encryptedData : bytes;
  encryptedDataLen : N
}.

(** [osMemset(&publicKeyInfo, 0, sizeof(X509SubjectPublicKeyInfo))] *)
Definition zero_X509SubjectPublicKeyInfo : X509SubjectPublicKeyInfo :=
  {| spki_oid := []; spki_oidLen := 0;
     spki_rsaPublicKey := zero_X509RsaPublicKey;
     spki_ecParams := zero_X509EcParameters;
     spki_rest := zero_X509SubjectPublicKeyInfoRest |}.

(** [osMemset(&privateKeyInfo, 0, sizeof(Pkcs8PrivateKeyInfo))] *)
Definition zero_Pkcs8PrivateKeyInfo : Pkcs8PrivateKeyInfo :=
  {| pki_oid := []; pki_oidLen := 0;
     pki_rsaPrivateKey := zero_Pkcs8RsaPrivateKey;
     pki_dsaParams := zero_X509DsaParameters;
     pki_dsaPrivateKey := zero_Pkcs8DsaPrivateKey;
     pki_ecParams := zero_X509EcParameters;
     pki_ecPrivateKey := zero_Pkcs8EcPrivateKey;
     pki_rest := zero_Pkcs8PrivateKeyInfoRest |}.

(** What one call of [pemDecodeFile] leaves behind: the status code, the
    bytes written to [output], [*outputLen], [*header] and [*consumed]. *)
Record PemDecoded : Type := {
  dec_error : error_t;
  dec_output : bytes;
  dec_outputLen : N;
  dec_header : PemHeader;
  dec_consumed : N
}.

End Structures.

(** [size_t] subtraction, modulo [2 ^ size_t_bits]. *)
Definition size_t_sub {T : Types} (a b : N) : N :=
  (a + 2 ^ size_t_bits - b mod 2 ^ size_t_bits) mod 2 ^ size_t_bits.

(** ** Collaborators *)

(** The functions [pem_import.c] calls.  An [out] structure is returned next
    to the status code; the caller's key object, which the caller has
    initialised and which the import routines fill in place, goes in and
    comes out.  A pointer argument that may be [NULL] is a [bool] (is it
    given?) where only its presence matters.  The allocator is an oracle
    on the requested size: a routine allocates at most once per call, and
    two calls that are compared run against the same oracle. *)
Class Collaborators {T : Types} : Type := {
  RSA_ENCRYPTION_OID : bytes;
  DSA_OID : bytes;
  EC_PUBLIC_KEY_OID : bytes;
  (** [pemDecodeFile(input, inputLen, label, output, outputLen, header,
      consumed)]; the three [bool]s say whether [output], [header] and
      [consumed] are given *)
  pemDecodeFile :
    option string -> N -> string -> bool -> bool -> bool -> PemDecoded;
  (** [cryptoAllocMem(n) != NULL] *)
  cryptoAllocMem : N -> bool;
  pemCompareString : PemString -> string -> bool;
  (** [pemDecryptMessage(header, password, ciphertext, ciphertextLen,
      plaintext, plaintextLen)] *)
  pemDecryptMessage :
    PemHeader -> option string -> bytes -> N -> error_t * bytes * N;
  pkcs8ParseEncryptedPrivateKeyInfo :
    bytes -> N -> error_t * Pkcs8EncryptedPrivateKeyInfo;
  pkcs5Decrypt :
    X509AlgoId -> option string -> bytes -> N -> error_t * bytes * N;
  pkcs8ParsePrivateKeyInfo : bytes -> N -> error_t * Pkcs8PrivateKeyInfo;
  pkcs8ParseRsaPrivateKey : bytes -> N -> error_t * Pkcs8RsaPrivateKey;
  pkcs8ParseDsaPrivateKey :
    bytes -> N -> error_t * X509DsaParameters * Pkcs8DsaPrivateKey;
  pkcs8ParseEcPrivateKey :
    bytes -> N -> error_t * X509EcParameters * Pkcs8EcPrivateKey;
  pkcs8ImportRsaPrivateKey :
    Pkcs8PrivateKeyInfo -> RsaPrivateKey -> error_t * RsaPrivateKey;
  pkcs8ImportDsaPrivateKey :
    Pkcs8PrivateKeyInfo -> DsaPrivateKey -> error_t * DsaPrivateKey;
  pkcs8ImportEcPrivateKey :
    Pkcs8PrivateKeyInfo -> EcPrivateKey -> error_t * EcPrivateKey;
  pkcs8ImportEddsaPrivateKey :
    Pkcs8PrivateKeyInfo -> EddsaPrivateKey -> error_t * EddsaPrivateKey;
  x509ParseRsaPublicKey : bytes -> N -> error_t * X509RsaPublicKey;
  (** [x509ParseSubjectPublicKeyInfo(data, length, totalLength,
      publicKeyInfo)] *)
  x509ParseSubjectPublicKeyInfo :
    bytes -> N -> error_t * N * X509SubjectPublicKeyInfo;
  x509ParseEcParameters : bytes -> N -> error_t * X509EcParameters;
  x509ImportRsaPublicKey :
    X509SubjectPublicKeyInfo -> RsaPublicKey -> error_t * RsaPublicKey;
  x509ImportDsaPublicKey :
    X509SubjectPublicKeyInfo -> DsaPublicKey -> error_t * DsaPublicKey;
  x509ImportEcPublicKey :
    X509SubjectPublicKeyInfo -> EcPublicKey -> error_t * EcPublicKey;
  x509ImportEddsaPublicKey :
    X509SubjectPublicKeyInfo -> EddsaPublicKey -> error_t * EddsaPublicKey;
  x509ImportEcParameters :
    X509EcParameters -> EcDomainParameters -> error_t * EcDomainParameters;
  x509GetPublicKeyType : bytes -> N -> X509KeyType;
  asn1ReadSequence : bytes -> N -> error_t * Asn1Tag;
  (** [asn1ReadMpi(data, length, tag, value)] *)
  asn1ReadMpi : bytes -> N -> Mpi -> error_t * Asn1Tag * Mpi;
  mpiFree : Mpi -> Mpi;
  rsaFreePublicKey : RsaPublicKey -> RsaPublicKey;
  rsaFreePrivateKey : RsaPrivateKey -> RsaPrivateKey;
  dsaFreePublicKey : DsaPublicKey -> DsaPublicKey;
  dsaFreePrivateKey : DsaPrivateKey -> DsaPrivateKey;
  ecFreeDomainParameters : EcDomainParameters -> EcDomainParameters;
  ecFreePublicKey : EcPublicKey -> EcPublicKey;
  ecFreePrivateKey : EcPrivateKey -> EcPrivateKey;
  eddsaFreePublicKey : EddsaPublicKey -> EddsaPublicKey;
  eddsaFreePrivateKey : EddsaPrivateKey -> EddsaPrivateKey
}.

(** ** The call log *)

(** Structural parsers, by the name of the C function. *)
Inductive Parser : Type :=
| pkcs8ParseEncryptedPrivateKeyInfo_
| pkcs8ParsePrivateKeyInfo_
| pkcs8ParseRsaPrivateKey_
| pkcs8ParseDsaPrivateKey_
| pkcs8ParseEcPrivateKey_
| x509ParseRsaPublicKey_
| x509ParseSubjectPublicKeyInfo_
| x509ParseEcParameters_
| asn1ReadSequence_
| asn1ReadMpi_.

(** Routines that fill the caller's key object. *)
Inductive Importer : Type :=
| pkcs8ImportRsaPrivateKey_
| pkcs8ImportDsaPrivateKey_
| pkcs8ImportEcPrivateKey_
| pkcs8ImportEddsaPrivateKey_
| x509ImportRsaPublicKey_
| x509ImportDsaPublicKey_
| x509ImportEcPublicKey_
| x509ImportEddsaPublicKey_
| x509ImportEcParameters_.

(** Routines that release the caller's key object. *)
Inductive Releaser : Type :=
| mpiFree_p
| mpiFree_g
| rsaFreePublicKey_
| rsaFreePrivateKey_
| dsaFreePublicKey_
| dsaFreePrivateKey_
| ecFreeDomainParameters_
| ecFreePublicKey_
| ecFreePrivateKey_
| eddsaFreePublicKey_
| eddsaFreePrivateKey_.

(** One entry per collaborator call, in the order of the calls.
    [EvDecode label output e data]: [pemDecodeFile] for [label]; [output] is
    [false] in the sizing pass ([output == NULL]) and [true] in the filling
    pass; [e] is its status and [data] what it wrote.
    [EvParse r data e]: parser [r] ran on [data] and returned [e]. *)
Inductive Event : Type :=
| EvDecode (label : string) (output : bool) (e : error_t) (data : bytes)
| EvAlloc (n : N) (ok : bool)
| EvFreeMem
| EvCompare (marker : string) (result : bool)
| EvPemDecrypt (password : option string) (data : bytes) (e : error_t)
| EvPkcs5Decrypt (password : option string) (data : bytes) (e : error_t)
| EvParse (r : Parser) (data : bytes) (e : error_t)
| EvImport (r : Importer) (e : error_t)
| EvFree (r : Releaser).

(** A computation returns its value and the calls it made. *)
Definition M (A : Type) : Type := (A * list Event)%type.

Definition ret {A : Type} (a : A) : M A := (a, []).

Definition bind {A B : Type} (m : M A) (f : A -> M B) : M B :=
  let (a, l1) := m in
  let (b, l2) := f a in
  (b, (l1 ++ l2)%list).

Definition emit (e : Event) : M unit := (tt, [e]).

Declare Scope pem_scope.
Delimit Scope pem_scope with pem.
Notation "x <- m ;; k" := (bind m (fun x => k))
  (at level 100, m at next level, right associativity) : pem_scope.
Notation "' pat <- m ;; k" := (bind m (fun x => match x with pat => k end))
  (at level 100, pat pattern, m at next level, right associativity)
  : pem_scope.
Notation "m ;; k" := (bind m (fun _ => k))
  (at level 100, right associativity) : pem_scope.
Open Scope pem_scope.

(** The outcome of an import call on a key object of type [K]: the status
    code, the object as the caller sees it afterwards ([None] when the
    caller passed [NULL]) and the log. *)
Definition Outcome (K : Type) : Type := M (error_t * option K).

Definition status {K : Type} (o : Outcome K) : error_t := fst (fst o).
Definition object {K : Type} (o : Outcome K) : option K := snd (fst o).
Definition events {A : Type} (o : M A) : list Event := snd o.

(** [input == NULL && length != 0] *)
Definition null_with_length (input : option string) (length : N) : bool :=
  match input with
  | None => negb (length =? 0)
  | Some _ => false
  end.

Section Calls.
Context {T : Types} {C : Collaborators}.

Definition call_pemDecodeFile (input : option string) (length : N)
    (label : string) (output header consumed : bool) : M PemDecoded :=
  let d := pemDecodeFile input length label output header consumed in
  emit (EvDecode label output (dec_error d) (dec_output d)) ;;
  ret d.

Definition call_cryptoAllocMem (n : N) : M bool :=
  let ok := cryptoAllocMem n in
  emit (EvAlloc n ok) ;; ret ok.

Definition call_cryptoFreeMem : M unit := emit EvFreeMem.

Definition call_pemCompareString (s : PemString) (marker : string) : M bool :=
  let b := pemCompareString s marker in
  emit (EvCompare marker b) ;; ret b.

Definition call_pemDecryptMessage (header : PemHeader)
    (password : option string) (buffer : bytes) (n : N)
    : M (error_t * bytes * N) :=
  let r := pemDecryptMessage header password buffer n in
  emit (EvPemDecrypt password buffer (fst (fst r))) ;; ret r.

Definition call_pkcs5Decrypt (algo : X509AlgoId) (password : option string)
    (data : bytes) (n : N) : M (error_t * bytes * N) :=
  let r := pkcs5Decrypt algo password data n in
  emit (EvPkcs5Decrypt password data (fst (fst r))) ;; ret r.

(** A parser call, logged under the name [r]. *)
Definition call_parse {A : Type} (r : Parser) (f : bytes -> N -> A)
    (err : A -> error_t) (data : bytes) (n : N) : M A :=
  let a := f data n in
  emit (EvParse r data (err a)) ;; ret a.

(** An import call, logged under the name [r]. *)
Definition call_import {I K : Type} (r : Importer)
    (f : I -> K -> error_t * K) (info : I) (key : K) : M (error_t * K) :=
  let a := f info key in
  emit (EvImport r (fst a)) ;; ret a.

(** A release call, logged under the name [r]. *)
Definition call_free {K : Type} (r : Releaser) (f : K -> K) (key : K) : M K :=
  emit (EvFree r) ;; ret (f key).

End Calls.

(** ** The import routines *)

(** A chain of [if(!error) { .. }] blocks is written nested: a block runs
    when every earlier block left [error] at [NO_ERROR], and the code after
    the chain ([cryptoFreeMem], the cleanup) runs in either case. *)

Section Routines.
Context {T : Types} {C : Collaborators}.
Variable cfg : Config.

Definition set_spki_rsaPublicKey (v : X509RsaPublicKey)
    (i : X509SubjectPublicKeyInfo) : X509SubjectPublicKeyInfo :=
  {| spki_oid := spki_oid i; spki_oidLen := spki_oidLen i;
     spki_rsaPublicKey := v; spki_ecParams := spki_ecParams i;
     spki_rest := spki_rest i |}.

Definition set_spki_oid (oid : bytes) (i : X509SubjectPublicKeyInfo)
    : X509SubjectPublicKeyInfo :=
  {| spki_oid := oid; spki_oidLen := N.of_nat (List.length oid);
     spki_rsaPublicKey := spki_rsaPublicKey i;
     spki_ecParams := spki_ecParams i; spki_rest := spki_rest i |}.

Definition set_pki_oid (oid : bytes) (i : Pkcs8PrivateKeyInfo)
    : Pkcs8PrivateKeyInfo :=
  {| pki_oid := oid; pki_oidLen := N.of_nat (List.length oid);
     pki_rsaPrivateKey := pki_rsaPrivateKey i;
     pki_dsaParams := pki_dsaParams i;
     pki_dsaPrivateKey := pki_dsaPrivateKey i;
     pki_ecParams := pki_ecParams i;
     pki_ecPrivateKey := pki_ecPrivateKey i; pki_rest := pki_rest i |}.

Definition set_pki_rsaPrivateKey (v : Pkcs8RsaPrivateKey)
    (i : Pkcs8PrivateKeyInfo) : Pkcs8PrivateKeyInfo :=
  {| pki_oid := pki_oid i; pki_oidLen := pki_oidLen i;
     pki_rsaPrivateKey := v;
     pki_dsaParams := pki_dsaParams i;
     pki_dsaPrivateKey := pki_dsaPrivateKey i;
     pki_ecParams := pki_ecParams i;
     pki_ecPrivateKey := pki_ecPrivateKey i; pki_rest := pki_rest i |}.

Definition set_pki_dsa (dp : X509DsaParameters) (v : Pkcs8DsaPrivateKey)
    (i : Pkcs8PrivateKeyInfo) : Pkcs8PrivateKeyInfo :=
  {| pki_oid := pki_oid i; pki_oidLen := pki_oidLen i;
     pki_rsaPrivateKey := pki_rsaPrivateKey i;
     pki_dsaParams := dp;
     pki_dsaPrivateKey := v;
     pki_ecParams := pki_ecParams i;
     pki_ecPrivateKey := pki_ecPrivateKey i; pki_rest := pki_rest i |}.

Definition set_pki_ec (ep : X509EcParameters) (v : Pkcs8EcPrivateKey)
    (i : Pkcs8PrivateKeyInfo) : Pkcs8PrivateKeyInfo :=
  {| pki_oid := pki_oid i; pki_oidLen := pki_oidLen i;
     pki_rsaPrivateKey := pki_rsaPrivateKey i;
     pki_dsaParams := pki_dsaParams i;
     pki_dsaPrivateKey := pki_dsaPrivateKey i;
     pki_ecParams := ep;
     pki_ecPrivateKey := v; pki_rest := pki_rest i |}.




Definition set_params_p (v : Mpi) (params : DhParameters) : DhParameters :=
  {| params_p := v; params_g := params_g params |}.

Definition set_params_g (v : Mpi) (params : DhParameters) : DhParameters :=
  {| params_p := params_p params; params_g := v |}.

Definition pemImportDhParameters (input : option string) (length : N)
    (params : option DhParameters) : Outcome DhParameters :=
  if DH_SUPPORT cfg then
    if null_with_length input length then
      ret (ERROR_INVALID_PARAMETER, params)
    else
      match params with
      | None => ret (ERROR_INVALID_PARAMETER, None)
      | Some params =>
        d <- call_pemDecodeFile input length "DH PARAMETERS" false false
               false ;;
        '(error, params) <-
          (if is_ok (dec_error d) then
             buffer <- call_cryptoAllocMem (dec_outputLen d) ;;
             if buffer then
               d <- call_pemDecodeFile input length "DH PARAMETERS" true
                      false false ;;
               r <-
                 (if is_ok (dec_error d) then
                    '(error, tag) <- call_parse asn1ReadSequence_
                      asn1ReadSequence fst (dec_output d) (dec_outputLen d) ;;
                    if is_ok error then
                      let p := tag_value tag in
                      let n := tag_length tag in
                      '(error, tag, v) <- call_parse asn1ReadMpi_
                        (fun p n => asn1ReadMpi p n (params_p params))
                        (fun r => fst (fst r)) p n ;;
                      let params := set_params_p v params in
                      if is_ok error then
                        let p := skipn (N.to_nat (tag_totalLength tag)) p in
                        let n := size_t_sub n (tag_totalLength tag) in
                        '(error, tag, v) <- call_parse asn1ReadMpi_
                          (fun p n => asn1ReadMpi p n (params_g params))
                          (fun r => fst (fst r)) p n ;;
                        ret (error, set_params_g v params)
                      else ret (error, params)
                    else ret (error, params)
                  else ret (dec_error d, params)) ;;
               call_cryptoFreeMem ;;
               ret r
             else ret (ERROR_OUT_OF_MEMORY, params)
           else ret (dec_error d, params)) ;;
        if negb (is_ok error) then
          p <- call_free mpiFree_p mpiFree (params_p params) ;;
          g <- call_free mpiFree_g mpiFree (params_g params) ;;
          ret (error, Some {| params_p := p; params_g := g |})
        else ret (error, Some params)
      end
  else ret (ERROR_NOT_IMPLEMENTED, params).

Definition pemImportRsaPublicKey (input : option string) (length : N)
    (publicKey : option RsaPublicKey) : Outcome RsaPublicKey :=
  if RSA_SUPPORT cfg then
    if null_with_length input length then
      ret (ERROR_INVALID_PARAMETER, publicKey)
    else
      match publicKey with
      | None => ret (ERROR_INVALID_PARAMETER, None)
      | Some publicKey =>
        let publicKeyInfo := zero_X509SubjectPublicKeyInfo in
        d <- call_pemDecodeFile input length "RSA PUBLIC KEY" false false
               false ;;
        '(error, publicKey) <-
          (if is_ok (dec_error d) then
             buffer <- call_cryptoAllocMem (dec_outputLen d) ;;
             if buffer then
               d <- call_pemDecodeFile input length "RSA PUBLIC KEY" true
                      false false ;;
               r <-
                 (if is_ok (dec_error d) then
                    '(error, k) <- call_parse x509ParseRsaPublicKey_
                      x509ParseRsaPublicKey fst (dec_output d)
                      (dec_outputLen d) ;;
                    let publicKeyInfo :=
                      set_spki_rsaPublicKey k publicKeyInfo in
                    if is_ok error then
                      let publicKeyInfo :=
                        set_spki_oid RSA_ENCRYPTION_OID publicKeyInfo in
                      call_import x509ImportRsaPublicKey_
                        x509ImportRsaPublicKey publicKeyInfo publicKey
                    else ret (error, publicKey)
                  else ret (dec_error d, publicKey)) ;;
               call_cryptoFreeMem ;;
               ret r
             else ret (ERROR_OUT_OF_MEMORY, publicKey)
           else
             d <- call_pemDecodeFile input length "PUBLIC KEY" false false
                    false ;;
             if is_ok (dec_error d) then
               buffer <- call_cryptoAllocMem (dec_outputLen d) ;;
               if buffer then
                 d <- call_pemDecodeFile input length "PUBLIC KEY" true
                        false false ;;
                 r <-
                   (if is_ok (dec_error d) then
                      '(error, n, publicKeyInfo) <- call_parse
                        x509ParseSubjectPublicKeyInfo_
                        x509ParseSubjectPublicKeyInfo
                        (fun r => fst (fst r)) (dec_output d)
                        (dec_outputLen d) ;;
                      if is_ok error then
                        call_import x509ImportRsaPublicKey_
                          x509ImportRsaPublicKey publicKeyInfo publicKey
                      else ret (error, publicKey)
                    else ret (dec_error d, publicKey)) ;;
                 call_cryptoFreeMem ;;
                 ret r
               else ret (ERROR_OUT_OF_MEMORY, publicKey)
             else ret (ERROR_END_OF_FILE, publicKey)) ;;
        if negb (is_ok error) then
          publicKey <- call_free rsaFreePublicKey_ rsaFreePublicKey
                         publicKey ;;
          ret (error, Some publicKey)
        else ret (error, Some publicKey)
      end
  else ret (ERROR_NOT_IMPLEMENTED, publicKey).

Definition pemImportRsaPrivateKey (input : option string) (length : N)
    (password : option string) (privateKey : option RsaPrivateKey)
    : Outcome RsaPrivateKey :=
  if RSA_SUPPORT cfg then
    if null_with_length input length then
      ret (ERROR_INVALID_PARAMETER, privateKey)
    else
      match privateKey with
      | None => ret (ERROR_INVALID_PARAMETER, None)
      | Some privateKey =>
        let privateKeyInfo := zero_Pkcs8PrivateKeyInfo in
        d <- call_pemDecodeFile input length "RSA PRIVATE KEY" false false
               false ;;
        '(error, privateKey) <-
          (if is_ok (dec_error d) then
             buffer <- call_cryptoAllocMem (dec_outputLen d) ;;
             if buffer then
               d <- call_pemDecodeFile input length "RSA PRIVATE KEY" true
                      true false ;;
               r <-
                 (if is_ok (dec_error d) then
                    encrypted <- call_pemCompareString
                      (procType_type (dec_header d)) "ENCRYPTED" ;;
                    '(error, buffer, n) <-
                      (if encrypted then
                         call_pemDecryptMessage (dec_header d) password
                           (dec_output d) (dec_outputLen d)
                       else ret (dec_error d, dec_output d, dec_outputLen d)) ;;
                    if is_ok error then
                      '(error, k) <- call_parse pkcs8ParseRsaPrivateKey_
                        pkcs8ParseRsaPrivateKey fst buffer n ;;
                      let privateKeyInfo :=
                        set_pki_rsaPrivateKey k privateKeyInfo in
                      if is_ok error then
                        let privateKeyInfo :=
                          set_pki_oid RSA_ENCRYPTION_OID privateKeyInfo in
                        call_import pkcs8ImportRsaPrivateKey_
                          pkcs8ImportRsaPrivateKey privateKeyInfo privateKey
                      else ret (error, privateKey)
                    else ret (error, privateKey)
                  else ret (dec_error d, privateKey)) ;;
               call_cryptoFreeMem ;;
               ret r
             else ret (ERROR_OUT_OF_MEMORY, privateKey)
           else
             d <- call_pemDecodeFile input length "PRIVATE KEY" false false
                    false ;;
             if is_ok (dec_error d) then
               buffer <- call_cryptoAllocMem (dec_outputLen d) ;;
               if buffer then
                 d <- call_pemDecodeFile input length "PRIVATE KEY" true
                        false false ;;
                 r <-
                   (if is_ok (dec_error d) then
                      '(error, privateKeyInfo) <- call_parse
                        pkcs8ParsePrivateKeyInfo_ pkcs8ParsePrivateKeyInfo
                        fst (dec_output d) (dec_outputLen d) ;;
                      if is_ok error then
                        call_import pkcs8ImportRsaPrivateKey_
                          pkcs8ImportRsaPrivateKey privateKeyInfo privateKey
                      else ret (error, privateKey)
                    else ret (dec_error d, privateKey)) ;;
                 call_cryptoFreeMem ;;
                 ret r
               else ret (ERROR_OUT_OF_MEMORY, privateKey)
             else
               d <- call_pemDecodeFile input length "ENCRYPTED PRIVATE KEY"
                      false false false ;;
               if is_ok (dec_error d) then
                 if PEM_ENCRYPTED_KEY_SUPPORT cfg then
                   buffer <- call_cryptoAllocMem (dec_outputLen d) ;;
                   if buffer then
                     d <- call_pemDecodeFile input length
                            "ENCRYPTED PRIVATE KEY" true false false ;;
                     r <-
                       (if is_ok (dec_error d) then
                          '(error, encryptedPrivateKeyInfo) <- call_parse
                            pkcs8ParseEncryptedPrivateKeyInfo_
                            pkcs8ParseEncryptedPrivateKeyInfo fst
                            (dec_output d) (dec_outputLen d) ;;
                          if is_ok error then
                            let data :=
                              encryptedData encryptedPrivateKeyInfo in
                            let n :=
                              encryptedDataLen encryptedPrivateKeyInfo in
                            '(error, data, n) <- call_pkcs5Decrypt
                              (encryptionAlgo encryptedPrivateKeyInfo)
                              password data n ;;
                            if is_ok error then
                              '(error, privateKeyInfo) <- call_parse
                                pkcs8ParsePrivateKeyInfo_
                                pkcs8ParsePrivateKeyInfo fst data n ;;
                              if is_ok error then
                                call_import pkcs8ImportRsaPrivateKey_
                                  pkcs8ImportRsaPrivateKey privateKeyInfo
                                  privateKey
                              else ret (error, privateKey)
                            else ret (error, privateKey)
                          else ret (error, privateKey)
                        else ret (dec_error d, privateKey)) ;;
                     call_cryptoFreeMem ;;
                     ret r
                   else ret (ERROR_OUT_OF_MEMORY, privateKey)
                 else ret (ERROR_DECRYPTION_FAILED, privateKey)
               else ret (ERROR_END_OF_FILE, privateKey)) ;;
        if negb (is_ok error) then
          privateKey <- call_free rsaFreePrivateKey_ rsaFreePrivateKey
                          privateKey ;;
          ret (error, Some privateKey)
        else ret (error, Some privateKey)
      end
  else ret (ERROR_NOT_IMPLEMENTED, privateKey).

Definition pemImportDsaPublicKey (input : option string) (length : N)
    (publicKey : option DsaPublicKey) : Outcome DsaPublicKey :=
  if DSA_SUPPORT cfg then
    if null_with_length input length then
      ret (ERROR_INVALID_PARAMETER, publicKey)
    else
      match publicKey with
      | None => ret (ERROR_INVALID_PARAMETER, None)
      | Some publicKey =>
        d <- call_pemDecodeFile input length "PUBLIC KEY" false false
               false ;;
        '(error, publicKey) <-
          (if is_ok (dec_error d) then
             buffer <- call_cryptoAllocMem (dec_outputLen d) ;;
             if buffer then
               d <- call_pemDecodeFile input length "PUBLIC KEY" true false
                      false ;;
               r <-
                 (if is_ok (dec_error d) then
                    '(error, n, publicKeyInfo) <- call_parse
                      x509ParseSubjectPublicKeyInfo_
                      x509ParseSubjectPublicKeyInfo
                      (fun r => fst (fst r)) (dec_output d)
                      (dec_outputLen d) ;;
                    if is_ok error then
                      call_import x509ImportDsaPublicKey_
                        x509ImportDsaPublicKey publicKeyInfo publicKey
                    else ret (error, publicKey)
                  else ret (dec_error d, publicKey)) ;;
               call_cryptoFreeMem ;;
               ret r
             else ret (ERROR_OUT_OF_MEMORY, publicKey)
           else ret (dec_error d, publicKey)) ;;
        if negb (is_ok error) then
          publicKey <- call_free dsaFreePublicKey_ dsaFreePublicKey
                         publicKey ;;
          ret (error, Some publicKey)
        else ret (error, Some publicKey)
      end
  else ret (ERROR_NOT_IMPLEMENTED, publicKey).

Definition pemImportDsaPrivateKey (input : option string) (length : N)
    (password : option string) (privateKey : option DsaPrivateKey)
    : Outcome DsaPrivateKey :=
  if DSA_SUPPORT cfg then
    if null_with_length input length then
      ret (ERROR_INVALID_PARAMETER, privateKey)
    else
      match privateKey with
      | None => ret (ERROR_INVALID_PARAMETER, None)
      | Some privateKey =>
        let privateKeyInfo := zero_Pkcs8PrivateKeyInfo in
        d <- call_pemDecodeFile input length "DSA PRIVATE KEY" false false
               false ;;
        '(error, privateKey) <-
          (if is_ok (dec_error d) then
             buffer <- call_cryptoAllocMem (dec_outputLen d) ;;
             if buffer then
               d <- call_pemDecodeFile input length "DSA PRIVATE KEY" true
                      true false ;;
               r <-
                 (if is_ok (dec_error d) then
                    encrypted <- call_pemCompareString
                      (procType_type (dec_header d)) "ENCRYPTED" ;;
                    '(error, buffer, n) <-
                      (if encrypted then
                         call_pemDecryptMessage (dec_header d) password
                           (dec_output d) (dec_outputLen d)
                       else ret (dec_error d, dec_output d, dec_outputLen d)) ;;
                    if is_ok error then
                      '(error, dp, k) <- call_parse pkcs8ParseDsaPrivateKey_
                        pkcs8ParseDsaPrivateKey (fun r => fst (fst r))
                        buffer n ;;
                      let privateKeyInfo := set_pki_dsa dp k privateKeyInfo in
                      if is_ok error then
                        let privateKeyInfo :=
                          set_pki_oid DSA_OID privateKeyInfo in
                        call_import pkcs8ImportDsaPrivateKey_
                          pkcs8ImportDsaPrivateKey privateKeyInfo privateKey
                      else ret (error, privateKey)
                    else ret (error, privateKey)
                  else ret (dec_error d, privateKey)) ;;
               call_cryptoFreeMem ;;
               ret r
             else ret (ERROR_OUT_OF_MEMORY, privateKey)
           else
             d <- call_pemDecodeFile input length "PRIVATE KEY" false false
                    false ;;
             if is_ok (dec_error d) then
               buffer <- call_cryptoAllocMem (dec_outputLen d) ;;
               if buffer then
                 d <- call_pemDecodeFile input length "PRIVATE KEY" true
                        false false ;;
                 r <-
                   (if is_ok (dec_error d) then
                      '(error, privateKeyInfo) <- call_parse
                        pkcs8ParsePrivateKeyInfo_ pkcs8ParsePrivateKeyInfo
                        fst (dec_output d) (dec_outputLen d) ;;
                      if is_ok error then
                        call_import pkcs8ImportDsaPrivateKey_
                          pkcs8ImportDsaPrivateKey privateKeyInfo privateKey
                      else ret (error, privateKey)
                    else ret (dec_error d, privateKey)) ;;
                 call_cryptoFreeMem ;;
                 ret r
               else ret (ERROR_OUT_OF_MEMORY, privateKey)
             else
               d <- call_pemDecodeFile input length "ENCRYPTED PRIVATE KEY"
                      false false false ;;
               if is_ok (dec_error d) then
                 if PEM_ENCRYPTED_KEY_SUPPORT cfg then
                   buffer <- call_cryptoAllocMem (dec_outputLen d) ;;
                   if buffer then
                     d <- call_pemDecodeFile input length
                            "ENCRYPTED PRIVATE KEY" true false false ;;
                     r <-
                       (if is_ok (dec_error d) then
                          '(error, encryptedPrivateKeyInfo) <- call_parse
                            pkcs8ParseEncryptedPrivateKeyInfo_
                            pkcs8ParseEncryptedPrivateKeyInfo fst
                            (dec_output d) (dec_outputLen d) ;;
                          if is_ok error then
                            let data :=
                              encryptedData encryptedPrivateKeyInfo in
                            let n :=
                              encryptedDataLen encryptedPrivateKeyInfo in
                            '(error, data, n) <- call_pkcs5Decrypt
                              (encryptionAlgo encryptedPrivateKeyInfo)
                              password data n ;;
                            if is_ok error then
                              '(error, privateKeyInfo) <- call_parse
                                pkcs8ParsePrivateKeyInfo_
                                pkcs8ParsePrivateKeyInfo fst data n ;;
                              if is_ok error then
                                call_import pkcs8ImportDsaPrivateKey_
                                  pkcs8ImportDsaPrivateKey privateKeyInfo
                                  privateKey
                              else ret (error, privateKey)
                            else ret (error, privateKey)
                          else ret (error, privateKey)
                        else ret (dec_error d, privateKey)) ;;
                     call_cryptoFreeMem ;;
                     ret r
                   else ret (ERROR_OUT_OF_MEMORY, privateKey)
                 else ret (ERROR_DECRYPTION_FAILED, privateKey)
               else ret (ERROR_END_OF_FILE, privateKey)) ;;
        if negb (is_ok error) then
          privateKey <- call_free dsaFreePrivateKey_ dsaFreePrivateKey
                          privateKey ;;
          ret (error, Some privateKey)
        else ret (error, Some privateKey)
      end
  else ret (ERROR_NOT_IMPLEMENTED, privateKey).

Definition pemImportEcParameters (input : option string) (length : N)
    (params : option EcDomainParameters) : Outcome EcDomainParameters :=
  if EC_SUPPORT cfg then
    if null_with_length input length then
      ret (ERROR_INVALID_PARAMETER, params)
    else
      match params with
      | None => ret (ERROR_INVALID_PARAMETER, None)
      | Some params =>
        d <- call_pemDecodeFile input length "EC PARAMETERS" false false
               false ;;
        '(error, params) <-
          (if is_ok (dec_error d) then
             buffer <- call_cryptoAllocMem (dec_outputLen d) ;;
             if buffer then
               d <- call_pemDecodeFile input length "EC PARAMETERS" true
                      false false ;;
               r <-
                 (if is_ok (dec_error d) then
                    '(error, ecParams) <- call_parse x509ParseEcParameters_
                      x509ParseEcParameters fst (dec_output d)
                      (dec_outputLen d) ;;
                    if is_ok error then
                      call_import x509ImportEcParameters_
                        x509ImportEcParameters ecParams params
                    else ret (error, params)
                  else ret (dec_error d, params)) ;;
               call_cryptoFreeMem ;;
               ret r
             else ret (ERROR_OUT_OF_MEMORY, params)
           else
             d <- call_pemDecodeFile input length "EC PRIVATE KEY" false
                    false false ;;
             if is_ok (dec_error d) then
               buffer <- call_cryptoAllocMem (dec_outputLen d) ;;
               if buffer then
                 d <- call_pemDecodeFile input length "EC PRIVATE KEY" true
                        false false ;;
                 r <-
                   (if is_ok (dec_error d) then
                      '(error, ecParams, k) <- call_parse
                        pkcs8ParseEcPrivateKey_ pkcs8ParseEcPrivateKey
                        (fun r => fst (fst r)) (dec_output d)
                        (dec_outputLen d) ;;
                      if is_ok error then
                        call_import x509ImportEcParameters_
                          x509ImportEcParameters ecParams params
                      else ret (error, params)
                    else ret (dec_error d, params)) ;;
                 call_cryptoFreeMem ;;
                 ret r
               else ret (ERROR_OUT_OF_MEMORY, params)
             else
               d <- call_pemDecodeFile input length "PRIVATE KEY" false
                      false false ;;
               if is_ok (dec_error d) then
                 buffer <- call_cryptoAllocMem (dec_outputLen d) ;;
                 if buffer then
                   d <- call_pemDecodeFile input length "PRIVATE KEY" true
                          false false ;;
                   r <-
                     (if is_ok (dec_error d) then
                        '(error, privateKeyInfo) <- call_parse
                          pkcs8ParsePrivateKeyInfo_ pkcs8ParsePrivateKeyInfo
                          fst (dec_output d) (dec_outputLen d) ;;
                        if is_ok error then
                          call_import x509ImportEcParameters_
                            x509ImportEcParameters
                            (pki_ecParams privateKeyInfo) params
                        else ret (error, params)
                      else ret (dec_error d, params)) ;;
                   call_cryptoFreeMem ;;
                   ret r
                 else ret (ERROR_OUT_OF_MEMORY, params)
               else
                 d <- call_pemDecodeFile input length "PUBLIC KEY" false
                        false false ;;
                 if is_ok (dec_error d) then
                   buffer <- call_cryptoAllocMem (dec_outputLen d) ;;
                   if buffer then
                     d <- call_pemDecodeFile input length "PUBLIC KEY" true
                            false false ;;
                     r <-
                       (if is_ok (dec_error d) then
                          '(error, n, publicKeyInfo) <- call_parse
                            x509ParseSubjectPublicKeyInfo_
                            x509ParseSubjectPublicKeyInfo
                            (fun r => fst (fst r)) (dec_output d)
                            (dec_outputLen d) ;;
                          if is_ok error then
                            call_import x509ImportEcParameters_
                              x509ImportEcParameters
                              (spki_ecParams publicKeyInfo) params
                          else ret (error, params)
                        else ret (dec_error d, params)) ;;
                     call_cryptoFreeMem ;;
                     ret r
                   else ret (ERROR_OUT_OF_MEMORY, params)
                 else ret (ERROR_END_OF_FILE, params)) ;;
        if negb (is_ok error) then
          params <- call_free ecFreeDomainParameters_ ecFreeDomainParameters
                      params ;;
          ret (error, Some params)
        else ret (error, Some params)
      end
  else ret (ERROR_NOT_IMPLEMENTED, params).

Definition pemImportEcPublicKey (input : option string) (length : N)
    (publicKey : option EcPublicKey) : Outcome EcPublicKey :=
  if EC_SUPPORT cfg then
    if null_with_length input length then
      ret (ERROR_INVALID_PARAMETER, publicKey)
    else
      match publicKey with
      | None => ret (ERROR_INVALID_PARAMETER, None)
      | Some publicKey =>
        d <- call_pemDecodeFile input length "PUBLIC KEY" false false
               false ;;
        '(error, publicKey) <-
          (if is_ok (dec_error d) then
             buffer <- call_cryptoAllocMem (dec_outputLen d) ;;
             if buffer then
               d <- call_pemDecodeFile input length "PUBLIC KEY" true false
                      false ;;
               r <-
                 (if is_ok (dec_error d) then
                    '(error, n, publicKeyInfo) <- call_parse
                      x509ParseSubjectPublicKeyInfo_
                      x509ParseSubjectPublicKeyInfo
                      (fun r => fst (fst r)) (dec_output d)
                      (dec_outputLen d) ;;
                    if is_ok error then
                      call_import x509ImportEcPublicKey_
                        x509ImportEcPublicKey publicKeyInfo publicKey
                    else ret (error, publicKey)
                  else ret (dec_error d, publicKey)) ;;
               call_cryptoFreeMem ;;
               ret r
             else ret (ERROR_OUT_OF_MEMORY, publicKey)
           else ret (dec_error d, publicKey)) ;;
        if negb (is_ok error) then
          publicKey <- call_free ecFreePublicKey_ ecFreePublicKey
                         publicKey ;;
          ret (error, Some publicKey)
        else ret (error, Some publicKey)
      end
  else ret (ERROR_NOT_IMPLEMENTED, publicKey).

Definition pemImportEcPrivateKey (input : option string) (length : N)
    (password : option string) (privateKey : option EcPrivateKey)
    : Outcome EcPrivateKey :=
  if EC_SUPPORT cfg then
    if null_with_length input length then
      ret (ERROR_INVALID_PARAMETER, privateKey)
    else
      match privateKey with
      | None => ret (ERROR_INVALID_PARAMETER, None)
      | Some privateKey =>
        let privateKeyInfo := zero_Pkcs8PrivateKeyInfo in
        d <- call_pemDecodeFile input length "EC PRIVATE KEY" false false
               false ;;
        '(error, privateKey) <-
          (if is_ok (dec_error d) then
             buffer <- call_cryptoAllocMem (dec_outputLen d) ;;
             if buffer then
               d <- call_pemDecodeFile input length "EC PRIVATE KEY" true
                      true false ;;
               r <-
                 (if is_ok (dec_error d) then
                    encrypted <- call_pemCompareString
                      (procType_type (dec_header d)) "ENCRYPTED" ;;
                    '(error, buffer, n) <-
                      (if encrypted then
                         call_pemDecryptMessage (dec_header d) password
                           (dec_output d) (dec_outputLen d)
                       else ret (dec_error d, dec_output d, dec_outputLen d)) ;;
                    if is_ok error then
                      '(error, ep, k) <- call_parse pkcs8ParseEcPrivateKey_
                        pkcs8ParseEcPrivateKey (fun r => fst (fst r))
                        buffer n ;;
                      let privateKeyInfo := set_pki_ec ep k privateKeyInfo in
                      if is_ok error then
                        let privateKeyInfo :=
                          set_pki_oid EC_PUBLIC_KEY_OID privateKeyInfo in
                        call_import pkcs8ImportEcPrivateKey_
                          pkcs8ImportEcPrivateKey privateKeyInfo privateKey
                      else ret (error, privateKey)
                    else ret (error, privateKey)
                  else ret (dec_error d, privateKey)) ;;
               call_cryptoFreeMem ;;
               ret r
             else ret (ERROR_OUT_OF_MEMORY, privateKey)
           else
             d <- call_pemDecodeFile input length "PRIVATE KEY" false false
                    false ;;
             if is_ok (dec_error d) then
               buffer <- call_cryptoAllocMem (dec_outputLen d) ;;
               if buffer then
                 d <- call_pemDecodeFile input length "PRIVATE KEY" true
                        false false ;;
                 r <-
                   (if is_ok (dec_error d) then
                      '(error, privateKeyInfo) <- call_parse
                        pkcs8ParsePrivateKeyInfo_ pkcs8ParsePrivateKeyInfo
                        fst (dec_output d) (dec_outputLen d) ;;
                      if is_ok error then
                        call_import pkcs8ImportEcPrivateKey_
                          pkcs8ImportEcPrivateKey privateKeyInfo privateKey
                      else ret (error, privateKey)
                    else ret (dec_error d, privateKey)) ;;
                 call_cryptoFreeMem ;;
                 ret r
               else ret (ERROR_OUT_OF_MEMORY, privateKey)
             else
               d <- call_pemDecodeFile input length "ENCRYPTED PRIVATE KEY"
                      false false false ;;
               if is_ok (dec_error d) then
                 if PEM_ENCRYPTED_KEY_SUPPORT cfg then
                   buffer <- call_cryptoAllocMem (dec_outputLen d) ;;
                   if buffer then
                     d <- call_pemDecodeFile input length
                            "ENCRYPTED PRIVATE KEY" true false false ;;
                     r <-
                       (if is_ok (dec_error d) then
                          '(error, encryptedPrivateKeyInfo) <- call_parse
                            pkcs8ParseEncryptedPrivateKeyInfo_
                            pkcs8ParseEncryptedPrivateKeyInfo fst
                            (dec_output d) (dec_outputLen d) ;;
                          if is_ok error then
                            let data :=
                              encryptedData encryptedPrivateKeyInfo in
                            let n :=
                              encryptedDataLen encryptedPrivateKeyInfo in
                            '(error, data, n) <- call_pkcs5Decrypt
                              (encryptionAlgo encryptedPrivateKeyInfo)
                              password data n ;;
                            if is_ok error then
                              '(error, privateKeyInfo) <- call_parse
                                pkcs8ParsePrivateKeyInfo_
                                pkcs8ParsePrivateKeyInfo fst data n ;;
                              if is_ok error then
                                call_import pkcs8ImportEcPrivateKey_
                                  pkcs8ImportEcPrivateKey privateKeyInfo
                                  privateKey
                              else ret (error, privateKey)
                            else ret (error, privateKey)
                          else ret (error, privateKey)
                        else ret (dec_error d, privateKey)) ;;
                     call_cryptoFreeMem ;;
                     ret r
                   else ret (ERROR_OUT_OF_MEMORY, privateKey)
                 else ret (ERROR_DECRYPTION_FAILED, privateKey)
               else ret (ERROR_END_OF_FILE, privateKey)) ;;
        if negb (is_ok error) then
          privateKey <- call_free ecFreePrivateKey_ ecFreePrivateKey
                          privateKey ;;
          ret (error, Some privateKey)
        else ret (error, Some privateKey)
      end
  else ret (ERROR_NOT_IMPLEMENTED, privateKey).

Definition pemImportEddsaPublicKey (input : option string) (length : N)
    (publicKey : option EddsaPublicKey) : Outcome EddsaPublicKey :=
  if ED25519_SUPPORT cfg || ED448_SUPPORT cfg then
    if null_with_length input length then
      ret (ERROR_INVALID_PARAMETER, publicKey)
    else
      match publicKey with
      | None => ret (ERROR_INVALID_PARAMETER, None)
      | Some publicKey =>
        d <- call_pemDecodeFile input length "PUBLIC KEY" false false
               false ;;
        '(error, publicKey) <-
          (if is_ok (dec_error d) then
             buffer <- call_cryptoAllocMem (dec_outputLen d) ;;
             if buffer then
               d <- call_pemDecodeFile input length "PUBLIC KEY" true false
                      false ;;
               r <-
                 (if is_ok (dec_error d) then
                    '(error, n, publicKeyInfo) <- call_parse
                      x509ParseSubjectPublicKeyInfo_
                      x509ParseSubjectPublicKeyInfo
                      (fun r => fst (fst r)) (dec_output d)
                      (dec_outputLen d) ;;
                    if is_ok error then
                      call_import x509ImportEddsaPublicKey_
                        x509ImportEddsaPublicKey publicKeyInfo publicKey
                    else ret (error, publicKey)
                  else ret (dec_error d, publicKey)) ;;
               call_cryptoFreeMem ;;
               ret r
             else ret (ERROR_OUT_OF_MEMORY, publicKey)
           else ret (dec_error d, publicKey)) ;;
        if negb (is_ok error) then
          publicKey <- call_free eddsaFreePublicKey_ eddsaFreePublicKey
                         publicKey ;;
          ret (error, Some publicKey)
        else ret (error, Some publicKey)
      end
  else ret (ERROR_NOT_IMPLEMENTED, publicKey).

Definition pemImportEddsaPrivateKey (input : option string) (length : N)
    (password : option string) (privateKey : option EddsaPrivateKey)
    : Outcome EddsaPrivateKey :=
  if ED25519_SUPPORT cfg || ED448_SUPPORT cfg then
    if null_with_length input length then
      ret (ERROR_INVALID_PARAMETER, privateKey)
    else
      match privateKey with
      | None => ret (ERROR_INVALID_PARAMETER, None)
      | Some privateKey =>
        d <- call_pemDecodeFile input length "PRIVATE KEY" false false
               false ;;
        '(error, privateKey) <-
          (if is_ok (dec_error d) then
             buffer <- call_cryptoAllocMem (dec_outputLen d) ;;
             if buffer then
               d <- call_pemDecodeFile input length "PRIVATE KEY" true
                      false false ;;
               r <-
                 (if is_ok (dec_error d) then
                    '(error, privateKeyInfo) <- call_parse
                      pkcs8ParsePrivateKeyInfo_ pkcs8ParsePrivateKeyInfo
                      fst (dec_output d) (dec_outputLen d) ;;
                    if is_ok error then
                      call_import pkcs8ImportEddsaPrivateKey_
                        pkcs8ImportEddsaPrivateKey privateKeyInfo privateKey
                    else ret (error, privateKey)
                  else ret (dec_error d, privateKey)) ;;
               call_cryptoFreeMem ;;
               ret r
             else ret (ERROR_OUT_OF_MEMORY, privateKey)
           else
             d <- call_pemDecodeFile input length "ENCRYPTED PRIVATE KEY"
                    false false false ;;
             if is_ok (dec_error d) then
               if PEM_ENCRYPTED_KEY_SUPPORT cfg then
                 buffer <- call_cryptoAllocMem (dec_outputLen d) ;;
                 if buffer then
                   d <- call_pemDecodeFile input length
                          "ENCRYPTED PRIVATE KEY" true false false ;;
                   r <-
                     (if is_ok (dec_error d) then
                        '(error, encryptedPrivateKeyInfo) <- call_parse
                          pkcs8ParseEncryptedPrivateKeyInfo_
                          pkcs8ParseEncryptedPrivateKeyInfo fst
                          (dec_output d) (dec_outputLen d) ;;
                        if is_ok error then
                          let data :=
                            encryptedData encryptedPrivateKeyInfo in
                          let n :=
                            encryptedDataLen encryptedPrivateKeyInfo in
                          '(error, data, n) <- call_pkcs5Decrypt
                            (encryptionAlgo encryptedPrivateKeyInfo)
                            password data n ;;
                          if is_ok error then
                            '(error, privateKeyInfo) <- call_parse
                              pkcs8ParsePrivateKeyInfo_
                              pkcs8ParsePrivateKeyInfo fst data n ;;
                            if is_ok error then
                              call_import pkcs8ImportEddsaPrivateKey_
                                pkcs8ImportEddsaPrivateKey privateKeyInfo
                                privateKey
                            else ret (error, privateKey)
                          else ret (error, privateKey)
                        else ret (error, privateKey)
                      else ret (dec_error d, privateKey)) ;;
                   call_cryptoFreeMem ;;
                   ret r
                 else ret (ERROR_OUT_OF_MEMORY, privateKey)
               else ret (ERROR_DECRYPTION_FAILED, privateKey)
             else ret (ERROR_END_OF_FILE, privateKey)) ;;
        if negb (is_ok error) then
          privateKey <- call_free eddsaFreePrivateKey_ eddsaFreePrivateKey
                          privateKey ;;
          ret (error, Some privateKey)
        else ret (error, Some privateKey)
      end
  else ret (ERROR_NOT_IMPLEMENTED, privateKey).

(** [X509_KEY_TYPE_UNKNOWN == t] *)
Definition is_unknown (t : X509KeyType) : bool :=
  match t with X509_KEY_TYPE_UNKNOWN => true | _ => false end.

(** The sizing pass of a label that is only compiled in when [enabled]:
    [pemDecodeFile(input, length, label, NULL, &n, NULL, NULL) == NO_ERROR]. *)
Definition sizing_if (enabled : bool) (input : option string) (length : N)
    (label : string) : M bool :=
  if enabled then
    d <- call_pemDecodeFile input length label false false false ;;
    ret (is_ok (dec_error d))
  else ret false.

Definition pemGetPublicKeyType (input : option string) (length : N)
    (keyType : option X509KeyType) : Outcome X509KeyType :=
  if null_with_length input length then
    ret (ERROR_INVALID_PARAMETER, keyType)
  else
    match keyType with
    | None => ret (ERROR_INVALID_PARAMETER, None)
    | Some _ =>
      let error := NO_ERROR in
      let keyType := X509_KEY_TYPE_UNKNOWN in
      rsa <- sizing_if (RSA_SUPPORT cfg) input length "RSA PUBLIC KEY" ;;
      if rsa then ret (error, Some X509_KEY_TYPE_RSA)
      else
        d <- call_pemDecodeFile input length "PUBLIC KEY" false false
               false ;;
        if is_ok (dec_error d) then
          buffer <- call_cryptoAllocMem (dec_outputLen d) ;;
          if buffer then
            d <- call_pemDecodeFile input length "PUBLIC KEY" true false
                   false ;;
            r <-
              (if is_ok (dec_error d) then
                 '(error, n, publicKeyInfo) <- call_parse
                   x509ParseSubjectPublicKeyInfo_
                   x509ParseSubjectPublicKeyInfo
                   (fun r => fst (fst r)) (dec_output d) (dec_outputLen d) ;;
                 if is_ok error then
                   let keyType :=
                     x509GetPublicKeyType (spki_oid publicKeyInfo)
                       (spki_oidLen publicKeyInfo) in
                   if is_unknown keyType then
                     ret (ERROR_WRONG_IDENTIFIER, Some keyType)
                   else ret (error, Some keyType)
                 else ret (error, Some keyType)
               else ret (dec_error d, Some keyType)) ;;
            call_cryptoFreeMem ;;
            ret r
          else ret (ERROR_OUT_OF_MEMORY, Some keyType)
        else ret (ERROR_END_OF_FILE, Some keyType)
    end.

Definition pemGetPrivateKeyType (input : option string) (length : N)
    (keyType : option X509KeyType) : Outcome X509KeyType :=
  if null_with_length input length then
    ret (ERROR_INVALID_PARAMETER, keyType)
  else
    match keyType with
    | None => ret (ERROR_INVALID_PARAMETER, None)
    | Some _ =>
      let error := NO_ERROR in
      let keyType := X509_KEY_TYPE_UNKNOWN in
      rsa <- sizing_if (RSA_SUPPORT cfg) input length "RSA PRIVATE KEY" ;;
      if rsa then ret (error, Some X509_KEY_TYPE_RSA)
      else
        dsa <- sizing_if (DSA_SUPPORT cfg) input length "DSA PRIVATE KEY" ;;
        if dsa then ret (error, Some X509_KEY_TYPE_DSA)
        else
          ec <- sizing_if (EC_SUPPORT cfg) input length "EC PRIVATE KEY" ;;
          if ec then ret (error, Some X509_KEY_TYPE_EC)
          else
            d <- call_pemDecodeFile input length "PRIVATE KEY" false false
                   false ;;
            if is_ok (dec_error d) then
              buffer <- call_cryptoAllocMem (dec_outputLen d) ;;
              if buffer then
                d <- call_pemDecodeFile input length "PRIVATE KEY" true
                       false false ;;
                r <-
                  (if is_ok (dec_error d) then
                     '(error, privateKeyInfo) <- call_parse
                       pkcs8ParsePrivateKeyInfo_ pkcs8ParsePrivateKeyInfo
                       fst (dec_output d) (dec_outputLen d) ;;
                     if is_ok error then
                       let keyType :=
                         x509GetPublicKeyType (pki_oid privateKeyInfo)
                           (pki_oidLen privateKeyInfo) in
                       if is_unknown keyType then
                         ret (ERROR_WRONG_IDENTIFIER, Some keyType)
                       else ret (error, Some keyType)
                     else ret (error, Some keyType)
                   else ret (dec_error d, Some keyType)) ;;
                call_cryptoFreeMem ;;
                ret r
              else ret (ERROR_OUT_OF_MEMORY, Some keyType)
            else ret (ERROR_END_OF_FILE, Some keyType)
    end.

End Routines.

(** ** Reading the log *)

(** The sizing-pass attempts, in order, with their status. *)
Fixpoint sizing_events (l : list Event) : list (string * error_t) :=
  match l with
  | [] => []
  | EvDecode label false e _ :: r => (label, e) :: sizing_events r
  | _ :: r => sizing_events r
  end.

Definition sizing_labels (l : list Event) : list string :=
  map fst (sizing_events l).

(** The labels decoded into a buffer (filling pass). *)
Fixpoint filling_labels (l : list Event) : list string :=
  match l with
  | [] => []
  | EvDecode label true _ _ :: r => label :: filling_labels r
  | _ :: r => filling_labels r
  end.

(** The label of the first sizing pass that succeeded. *)
Fixpoint matched (l : list Event) : option string :=
  match l with
  | [] => None
  | EvDecode label false e _ :: r => if is_ok e then Some label else matched r
  | _ :: r => matched r
  end.

(** What follows the first sizing pass that succeeded. *)
Fixpoint after_match (l : list Event) : option (list Event) :=
  match l with
  | [] => None
  | EvDecode _ false e _ :: r => if is_ok e then Some r else after_match r
  | _ :: r => after_match r
  end.

(** The status a logged call leaves in [error]; a failed allocation is
    reported as [ERROR_OUT_OF_MEMORY]. *)
Definition stage_error (e : Event) : error_t :=
  match e with
  | EvDecode _ _ e _ => e
  | EvAlloc _ ok => if ok then NO_ERROR else ERROR_OUT_OF_MEMORY
  | EvPemDecrypt _ _ e => e
  | EvPkcs5Decrypt _ _ e => e
  | EvParse _ _ e => e
  | EvImport _ e => e
  | EvFreeMem | EvCompare _ _ | EvFree _ => NO_ERROR
  end.

(** The status of the first logged call that failed. *)
Fixpoint first_failure (l : list Event) : error_t :=
  match l with
  | [] => NO_ERROR
  | e :: r => if is_ok (stage_error e) then first_failure r else stage_error e
  end.

(** Legacy detection: the header comparison and [pemDecryptMessage]. *)
Definition is_legacy_detection (e : Event) : bool :=
  match e with
  | EvCompare _ _ | EvPemDecrypt _ _ _ => true
  | _ => false
  end.

(** Wrapped detection: the envelope parser and [pkcs5Decrypt]. *)
Definition is_wrapped_detection (e : Event) : bool :=
  match e with
  | EvParse pkcs8ParseEncryptedPrivateKeyInfo_ _ _ => true
  | EvPkcs5Decrypt _ _ _ => true
  | _ => false
  end.

Definition uses_legacy (l : list Event) : bool := existsb is_legacy_detection l.
Definition uses_wrapped (l : list Event) : bool :=
  existsb is_wrapped_detection l.

(** Every [pemDecryptMessage] comes right after a comparison of the header's
    Proc-Type with ["ENCRYPTED"] that answered yes. *)
Fixpoint decrypt_follows_marker (l : list Event) : bool :=
  match l with
  | [] => true
  | EvCompare "ENCRYPTED" true :: EvPemDecrypt _ _ _ :: r =>
      decrypt_follows_marker r
  | EvPemDecrypt _ _ _ :: _ => false
  | _ :: r => decrypt_follows_marker r
  end.

(** Every [pkcs5Decrypt] comes right after an envelope parse that
    succeeded. *)
Fixpoint decrypt_follows_envelope (l : list Event) : bool :=
  match l with
  | [] => true
  | EvParse pkcs8ParseEncryptedPrivateKeyInfo_ _ e
      :: EvPkcs5Decrypt _ _ _ :: r => is_ok e && decrypt_follows_envelope r
  | EvPkcs5Decrypt _ _ _ :: _ => false
  | _ :: r => decrypt_follows_envelope r
  end.

(** The payloads handed to structural parsers, and those written by the
    filling pass. *)
Fixpoint parsed_payloads (l : list Event) : list bytes :=
  match l with
  | [] => []
  | EvParse _ data _ :: r => data :: parsed_payloads r
  | _ :: r => parsed_payloads r
  end.

Fixpoint decoded_payloads (l : list Event) : list bytes :=
  match l with
  | [] => []
  | EvDecode _ true _ data :: r => data :: decoded_payloads r
  | _ :: r => decoded_payloads r
  end.

Definition is_sizing (e : Event) : bool :=
  match e with EvDecode _ false _ _ => true | _ => false end.

Definition is_free (e : Event) : bool :=
  match e with EvFree _ => true | _ => false end.

(** ** Label resolution, stated on the decoder *)

Section Resolution.
Context {T : Types} {C : Collaborators}.
Variables (input : option string) (length : N).

(** Status of the sizing pass for [label]. *)
Definition sizing_error (label : string) : error_t :=
  dec_error (pemDecodeFile input length label false false false).

Definition sizing_ok (label : string) : bool := is_ok (sizing_error label).

(** The first candidate whose sizing pass succeeds. *)
Definition first_match (candidates : list string) : option string :=
  find sizing_ok candidates.

(** The candidates up to and including the first match. *)
Fixpoint attempts (candidates : list string) : list string :=
  match candidates with
  | [] => []
  | label :: rest =>
      if sizing_ok label then [label] else label :: attempts rest
  end.

End Resolution.

(** The candidate lists of the private-key and public-key imports. *)
Definition rsa_private_labels : list string :=
  ["RSA PRIVATE KEY"; "PRIVATE KEY"; "ENCRYPTED PRIVATE KEY"].
Definition dsa_private_labels : list string :=
  ["DSA PRIVATE KEY"; "PRIVATE KEY"; "ENCRYPTED PRIVATE KEY"].
Definition ec_private_labels : list string :=
  ["EC PRIVATE KEY"; "PRIVATE KEY"; "ENCRYPTED PRIVATE KEY"].
Definition eddsa_private_labels : list string :=
  ["PRIVATE KEY"; "ENCRYPTED PRIVATE KEY"].
Definition rsa_public_labels : list string := ["RSA PUBLIC KEY"; "PUBLIC KEY"].
Definition generic_public_labels : list string := ["PUBLIC KEY"].

(** Every algorithm the file guards with a switch is compiled in. *)
Definition implemented (cfg : Config) : Prop :=
  RSA_SUPPORT cfg = true /\ DSA_SUPPORT cfg = true /\ EC_SUPPORT cfg = true /\
  (ED25519_SUPPORT cfg || ED448_SUPPORT cfg) = true /\ DH_SUPPORT cfg = true.

(** ** Error kinds *)

Inductive ErrorKind : Type :=
| InvalidParameter
| NotFound
| AllocationFailure
| DecryptionFailure
| MalformedStructure
| UnsupportedAlgorithm
| EncryptionUnsupported.

(** Modelled from the spec: the error kinds of its section 7, which
    [error.h] (outside this file) does not name.  Each code the file
    reports goes to the kind whose description it carries; a
    collaborator's other codes are structural defects.  [NO_ERROR] and
    [ERROR_NOT_IMPLEMENTED] have no kind there. *)
Definition error_kind (e : error_t) : option ErrorKind :=
  match e with
  | NO_ERROR => None
  | ERROR_INVALID_PARAMETER => Some InvalidParameter
  | ERROR_OUT_OF_MEMORY => Some AllocationFailure
  | ERROR_END_OF_FILE => Some NotFound
  | ERROR_DECRYPTION_FAILED => Some DecryptionFailure
  | ERROR_WRONG_IDENTIFIER => Some UnsupportedAlgorithm
  | ERROR_NOT_IMPLEMENTED => None
  | ERROR_CODE _ => Some MalformedStructure
  end.

(** ** A sample set of collaborators *)

(** Small stand-ins for the collaborators, to run the routines on concrete
    texts.  The armor decoder looks for the BEGIN line of the label and
    hands out the text up to the END line as it is (no base64); a payload
    parses when it is not empty; decryption succeeds with the password
    ["secret"]; a key object is [None] when initialised or released. *)
Module Sample.

Definition types : Types := {|
  Mpi := option N;
  PemString := string;
  PemHeader := string;
  RsaPublicKey := option bytes;
  RsaPrivateKey := option bytes;
  DsaPublicKey := option bytes;
  DsaPrivateKey := option bytes;
  EcDomainParameters := option bytes;
  EcPublicKey := option bytes;
  EcPrivateKey := option bytes;
  EddsaPublicKey := option bytes;
  EddsaPrivateKey := option bytes;
  X509RsaPublicKey := bytes;
  X509DsaParameters := bytes;
  X509EcParameters := bytes;
  X509SubjectPublicKeyInfoRest := bytes;
  Pkcs8RsaPrivateKey := bytes;
  Pkcs8DsaPrivateKey := bytes;
  Pkcs8EcPrivateKey := bytes;
  Pkcs8PrivateKeyInfoRest := bytes;
  X509AlgoId := unit;
  zero_X509RsaPublicKey := [];
  zero_X509EcParameters := [];
  zero_X509SubjectPublicKeyInfoRest := [];
  zero_Pkcs8RsaPrivateKey := [];
  zero_X509DsaParameters := [];
  zero_Pkcs8DsaPrivateKey := [];
  zero_Pkcs8EcPrivateKey := [];
  zero_Pkcs8PrivateKeyInfoRest := [];
  procType_type := fun h => h;
  size_t_bits := 32
|}.

Definition text (input : option string) (length : N) : string :=
  match input with
  | None => EmptyString
  | Some s => substring 0 (N.to_nat length) s
  end.

Definition contains (needle hay : string) : bool :=
  match index 0 needle hay with Some _ => true | None => false end.

Definition syntax_error : error_t := ERROR_CODE 1.

Definition decoded (e : error_t) (out : bytes) (n : N) (h : string) (c : N)
    : @PemDecoded types :=
  @Build_PemDecoded types e out n h c.

Definition decode (input : option string) (length : N) (label : string)
    (output header consumed : bool) : @PemDecoded types :=
  let t := text input length in
  let first := ("-----BEGIN " ++ label ++ "-----")%string in
  match index 0 first t with
  | None => decoded ERROR_END_OF_FILE [] 0 EmptyString 0
  | Some i =>
    let start := (i + String.length first)%nat in
    match index start "-----END " t with
    | None => decoded syntax_error [] 0 EmptyString 0
    | Some j =>
      let body := substring start (j - start) t in
      decoded NO_ERROR
        (if output then list_byte_of_string body else [])
        (N.of_nat (String.length body))
        (if contains "Proc-Type: 4,ENCRYPTED" body then "ENCRYPTED"
         else EmptyString)
        (N.of_nat j)
    end
  end.

Definition nonempty (data : bytes) : error_t :=
  match data with [] => syntax_error | _ => NO_ERROR end.

Definition decrypt (password : option string) (data : bytes) (n : N)
    : error_t * bytes * N :=
  match password with
  | Some pw => if String.eqb pw "secret" then (NO_ERROR, data, n)
               else (ERROR_DECRYPTION_FAILED, data, n)
  | None => (ERROR_DECRYPTION_FAILED, data, n)
  end.

Definition rsa_oid : bytes := list_byte_of_string "rsaEncryption".

Definition private_info (data : bytes) : @Pkcs8PrivateKeyInfo types :=
  @Build_Pkcs8PrivateKeyInfo types rsa_oid 13 data data data data data data.

Definition public_info (data : bytes) : @X509SubjectPublicKeyInfo types :=
  @Build_X509SubjectPublicKeyInfo types rsa_oid 13 data data data.

Definition envelope (data : bytes) (n : N)
    : @Pkcs8EncryptedPrivateKeyInfo types :=
  @Build_Pkcs8EncryptedPrivateKeyInfo types tt data n.

Definition tag (data : bytes) (n : N) : Asn1Tag :=
  {| tag_value := data; tag_length := n; tag_totalLength := 1 |}.

Definition collaborators : @Collaborators types := {|
  RSA_ENCRYPTION_OID := rsa_oid;
  DSA_OID := list_byte_of_string "dsa";
  EC_PUBLIC_KEY_OID := list_byte_of_string "ecPublicKey";
  pemDecodeFile := decode;
  cryptoAllocMem := fun _ => true;
  pemCompareString := String.eqb;
  pemDecryptMessage := fun _ => decrypt;
  pkcs8ParseEncryptedPrivateKeyInfo := fun data n =>
    (nonempty data, envelope data n);
  pkcs5Decrypt := fun _ => decrypt;
  pkcs8ParsePrivateKeyInfo := fun data _ => (nonempty data, private_info data);
  pkcs8ParseRsaPrivateKey := fun data _ => (nonempty data, data);
  pkcs8ParseDsaPrivateKey := fun data _ => (nonempty data, data, data);
  pkcs8ParseEcPrivateKey := fun data _ => (nonempty data, data, data);
  pkcs8ImportRsaPrivateKey := fun i _ => (NO_ERROR, Some (pki_rsaPrivateKey i));
  pkcs8ImportDsaPrivateKey := fun i _ => (NO_ERROR, Some (pki_dsaPrivateKey i));
  pkcs8ImportEcPrivateKey := fun i _ => (NO_ERROR, Some (pki_ecPrivateKey i));
  pkcs8ImportEddsaPrivateKey := fun i _ => (NO_ERROR, Some (pki_rest i));
  x509ParseRsaPublicKey := fun data _ => (nonempty data, data);
  x509ParseSubjectPublicKeyInfo := fun data n =>
    (nonempty data, n, public_info data);
  x509ParseEcParameters := fun data _ => (nonempty data, data);
  x509ImportRsaPublicKey := fun i _ => (NO_ERROR, Some (spki_rsaPublicKey i));
  x509ImportDsaPublicKey := fun i _ => (NO_ERROR, Some (spki_rest i));
  x509ImportEcPublicKey := fun i _ => (NO_ERROR, Some (spki_rest i));
  x509ImportEddsaPublicKey := fun i _ => (NO_ERROR, Some (spki_rest i));
  x509ImportEcParameters := fun p _ => (NO_ERROR, Some p);
  x509GetPublicKeyType := fun _ n =>
    if n =? 13 then X509_KEY_TYPE_RSA else X509_KEY_TYPE_UNKNOWN;
  asn1ReadSequence := fun data n => (nonempty data, tag data n);
  asn1ReadMpi := fun data n _ => (nonempty data, tag data n, Some 5);
  mpiFree := fun _ => None;
  rsaFreePublicKey := fun _ => None;
  rsaFreePrivateKey := fun _ => None;
  dsaFreePublicKey := fun _ => None;
  dsaFreePrivateKey := fun _ => None;
  ecFreeDomainParameters := fun _ => None;
  ecFreePublicKey := fun _ => None;
  ecFreePrivateKey := fun _ => None;
  eddsaFreePublicKey := fun _ => None;
  eddsaFreePrivateKey := fun _ => None
|}.

(** Sample texts. *)
Definition nl : string := String (Ascii.ascii_of_nat 10) EmptyString.

Definition container (label body : string) : string :=
  ("-----BEGIN " ++ label ++ "-----" ++ nl ++ body ++ nl
   ++ "-----END " ++ label ++ "-----" ++ nl)%string.

Definition rsa_pem : string := container "RSA PRIVATE KEY" "MIIBOg".
Definition rsa_encrypted_pem : string :=
  container "RSA PRIVATE KEY" "Proc-Type: 4,ENCRYPTED".
Definition pkcs8_pem : string := container "PRIVATE KEY" "MIIBVQ".
Definition wrapped_pem : string := container "ENCRYPTED PRIVATE KEY" "MIIBvT".
Definition dsa_public_pem : string := container "DSA PUBLIC KEY" "MIIBtj".
Definition public_pem : string := container "PUBLIC KEY" "MFwwDQ".
Definition other_pem : string := container "CERTIFICATE" "MIIDdz".

Definition len (s : string) : N := N.of_nat (String.length s).

(** A key object that already holds material. *)
Definition held : option bytes := Some (list_byte_of_string "old").

End Sample.

(** * Properties *)

(** ** What is stated of an outcome *)

Section Statements.
Context {T : Types} {C : Collaborators}.
Variables (input : option string) (length : N).

(** The call is turned away by the parameter check. *)
Definition rejected {K : Type} (out : option K) : bool :=
  null_with_length input length
  || match out with None => true | Some _ => false end.

(** The last [n] calls of a log. *)
Definition closing (n : nat) (l : list Event) : list Event :=
  rev (firstn n (rev l)).


(** A rejected call returns at once and leaves the object alone; any other
    failing call ends with the release calls [last_calls] and hands the
    object back as [release] leaves it. *)
Definition releases_on_failure {K : Type} (release : K -> K)
    (last_calls : list Event) (out : option K) (o : Outcome K) : Prop :=
  (rejected out = true ->
   status o = ERROR_INVALID_PARAMETER /\ events o = [] /\ object o = out) /\
  (rejected out = false -> is_ok (status o) = false ->
   closing (List.length last_calls) (events o) = last_calls /\
   exists k, object o = Some (release k)).

(** The sizing passes run down [candidates] and stop at the first success,
    which is the label decoded afterwards. *)
Definition resolves_by_priority {K : Type} (candidates : list string)
    (o : Outcome K) : Prop :=
  sizing_events (events o)
  = map (fun l => (l, sizing_error input length l))
      (attempts input length candidates)
  /\ matched (events o) = first_match input length candidates
  /\ (forall l, In l (filling_labels (events o)) ->
      first_match input length candidates = Some l).

Definition not_found_when_unmatched {K : Type} (candidates : list string)
    (o : Outcome K) : Prop :=
  first_match input length candidates = None -> status o = ERROR_END_OF_FILE.

(** After the sizing pass that succeeded no other label is sized, and the
    call returns the status of the first stage that failed; when none
    failed it returns [NO_ERROR], or [ERROR_DECRYPTION_FAILED] for the
    encrypted label in a build without encrypted-key support. *)
Definition settles_on_match {K : Type} (cfg : Config) (o : Outcome K)
    : Prop :=
  forall rest, after_match (events o) = Some rest ->
    sizing_events rest = [] /\
    (is_ok (first_failure rest) = false -> status o = first_failure rest) /\
    (is_ok (first_failure rest) = true ->
     status o = NO_ERROR \/
     (PEM_ENCRYPTED_KEY_SUPPORT cfg = false /\
      matched (events o) = Some "ENCRYPTED PRIVATE KEY" /\
      status o = ERROR_DECRYPTION_FAILED)).

(** The two detection mechanisms by matched label. *)
Definition exclusive_detection {K : Type} (legacy : list string)
    (o : Outcome K) : Prop :=
  uses_legacy (events o) && uses_wrapped (events o) = false /\
  decrypt_follows_marker (events o) = true /\
  decrypt_follows_envelope (events o) = true /\
  (forall l, matched (events o) = Some l ->
     (In l legacy -> uses_wrapped (events o) = false) /\
     (l = "ENCRYPTED PRIVATE KEY" -> uses_legacy (events o) = false) /\
     (l = "PRIVATE KEY" ->
      uses_legacy (events o) = false /\ uses_wrapped (events o) = false /\
      forall data, In data (parsed_payloads (events o)) ->
                   In data (decoded_payloads (events o)))).

(** The input matches the generic label, or a legacy label whose header
    has no ["ENCRYPTED"] marker. *)
Definition needs_no_password (candidates legacy : list string) : Prop :=
  first_match input length candidates = Some "PRIVATE KEY" \/
  exists l, In l legacy /\ first_match input length candidates = Some l /\
    pemCompareString
      (procType_type
         (dec_header (pemDecodeFile input length l true true false)))
      "ENCRYPTED" = false.


End Statements.


(** [mpiFree(&params->p); mpiFree(&params->g)] *)
Definition free_dh_fields {T : Types} {C : Collaborators}
    (params : DhParameters) : DhParameters :=
  {| params_p := mpiFree (params_p params);
     params_g := mpiFree (params_g params) |}.





(** ** Further readings of the log *)

(** The payload buffer through a call; [held] says whether it is allocated.
    It is allocated once the sizing passes are over and at most while none
    is held, the filling pass, decryption, the parsers and the import
    routine run while it is held, it is released while held, the key's
    free routine runs after it, and none is held at the end. *)
Fixpoint buffer_discipline (held : bool) (l : list Event) : bool :=
  match l with
  | [] => negb held
  | EvDecode _ false _ _ :: r => negb held && buffer_discipline held r
  | EvAlloc _ ok :: r => negb held && buffer_discipline ok r
  | EvFreeMem :: r => held && buffer_discipline false r
  | EvDecode _ true _ _ :: r
  | EvPemDecrypt _ _ _ :: r
  | EvPkcs5Decrypt _ _ _ :: r
  | EvParse _ _ _ :: r
  | EvImport _ _ :: r => held && buffer_discipline held r
  | EvCompare _ _ :: r => buffer_discipline held r
  | EvFree _ :: r => negb held && buffer_discipline held r
  end.

(** The sizes asked of [cryptoAllocMem]. *)
Fixpoint alloc_sizes (l : list Event) : list N :=
  match l with
  | [] => []
  | EvAlloc n _ :: r => n :: alloc_sizes r
  | _ :: r => alloc_sizes r
  end.

(** The passwords handed to the decryption primitives. *)
Fixpoint decrypt_passwords (l : list Event) : list (option string) :=
  match l with
  | [] => []
  | EvPemDecrypt password _ _ :: r => password :: decrypt_passwords r
  | EvPkcs5Decrypt password _ _ :: r => password :: decrypt_passwords r
  | _ :: r => decrypt_passwords r
  end.

(** The candidate lists of [pemImportEcParameters] and of the key-type
    routines; a legacy label is a candidate of the key-type routines only
    when its algorithm is compiled in. *)
Definition ec_parameters_labels : list string :=
  ["EC PARAMETERS"; "EC PRIVATE KEY"; "PRIVATE KEY"; "PUBLIC KEY"].

Definition public_type_labels (cfg : Config) : list string :=
  ((if RSA_SUPPORT cfg then ["RSA PUBLIC KEY"] else []) ++ ["PUBLIC KEY"])%list.

Definition private_type_labels (cfg : Config) : list string :=
  ((if RSA_SUPPORT cfg then ["RSA PRIVATE KEY"] else [])
   ++ (if DSA_SUPPORT cfg then ["DSA PRIVATE KEY"] else [])
   ++ (if EC_SUPPORT cfg then ["EC PRIVATE KEY"] else [])
   ++ ["PRIVATE KEY"])%list.

Section MoreStatements.
Context {T : Types} {C : Collaborators}.
Variables (input : option string) (length : N).

(** One buffer at most, used as [buffer_discipline] says. *)
Definition one_buffer {A : Type} (o : M A) : Prop :=
  buffer_discipline false (events o) = true /\
  Nat.leb (List.length (alloc_sizes (events o))) 1 = true.

(** The free routine runs exactly in the failing calls that got past the
    [#if] and the parameter check. *)
Definition releases_exactly_on_failure {K : Type} (enabled : bool)
    (out : option K) (o : Outcome K) : Prop :=
  existsb is_free (events o)
  = enabled && negb (rejected input length out) && negb (is_ok (status o)).

(** A buffer is asked for with the length the sizing pass of the matched
    label reported. *)
Definition allocates_reported_size {A : Type} (o : M A) : Prop :=
  forall n, In n (alloc_sizes (events o)) ->
    exists l, matched (events o) = Some l /\
      n = dec_outputLen (pemDecodeFile input length l false false false).

(** No header test, no decryption. *)
Definition never_decrypts {A : Type} (o : M A) : Prop :=
  uses_legacy (events o) = false /\ uses_wrapped (events o) = false.

(** What a parser receives is what the filling pass wrote. *)
Definition parses_decoded_payload {A : Type} (o : M A) : Prop :=
  forall data, In data (parsed_payloads (events o)) ->
               In data (decoded_payloads (events o)).

(** At most one decryption, with the caller's password. *)
Definition decrypts_once_with {A : Type} (password : option string)
    (o : M A) : Prop :=
  decrypt_passwords (events o) = [] \/
  decrypt_passwords (events o) = [password].

(** A key-type call that is not rejected reports success exactly when it
    leaves a key type other than [X509_KEY_TYPE_UNKNOWN]. *)
Definition known_iff_success (o : Outcome X509KeyType) : Prop :=
  exists t, object o = Some t /\ is_ok (status o) = negb (is_unknown t).

End MoreStatements.

(** More sample data: initialised DH parameters, and a DH container whose
    END line is missing. *)
Definition sample_dh : @DhParameters Sample.types :=
  @Build_DhParameters Sample.types None None.

Definition unterminated_dh_pem : string :=
  ("-----BEGIN DH PARAMETERS-----" ++ Sample.nl ++ "MIIB")%string.

(** A DH container with nothing between its BEGIN and END lines. *)
Definition empty_dh_pem : string :=
  "-----BEGIN DH PARAMETERS----------END DH PARAMETERS-----".

(** ** Proof automation *)

(** Evaluate an outcome along the path the call takes: find the test that
    blocks the computation and split on it. *)
Ltac head_step t :=
  lazymatch t with
  | (if ?b then _ else _) => head_scrutinee b
  | (match ?x with pair _ _ => _ end) => head_scrutinee x
  | (match ?x with Some _ => _ | None => _ end) => head_scrutinee x
  | bind ?m _ => head_step m
  | negb ?b => head_scrutinee b
  end
with head_scrutinee x := first [ head_step x | destruct x eqn:? ].

(** Use the tests recorded by [run_outcome] in what is left of the goal. *)
Ltac recall :=
  repeat match goal with
         | H : ?x = _ |- context [?x] => rewrite H
         end.

Ltac recall_status :=
  repeat match goal with
         | H : is_ok ?x = _ |- context [is_ok ?x] => rewrite H
         end.

Ltac run_outcome :=
  cbn;
  repeat (lazymatch goal with |- _ = ?t -> _ => head_step t end;
          cbn; recall_status; cbn).

Ltac finish := intros ->; cbn; recall_status; cbn.

(** Name the outcome [o] of the call in the goal and expose its
    definition as a premise. *)
Ltac name_outcome o :=
  generalize (eq_refl o); unfold o at 2; clearbody o.

(** [e = NO_ERROR] from [is_ok e = true]. *)
Ltac ok_is_no_error :=
  match goal with
  | H : is_ok ?e = true |- ?e = NO_ERROR =>
      destruct e; first [ reflexivity | discriminate H ]
  end.

(** Unfold a routine in the goal and evaluate it. *)
Ltac evaluate f :=
  unfold f, sizing_if, call_pemDecodeFile, call_cryptoAllocMem,
    call_cryptoFreeMem, call_pemCompareString, call_pemDecryptMessage,
    call_pkcs5Decrypt, call_parse, call_import, call_free;
  recall; run_outcome; finish.

Ltac prove_release f :=
  let key := fresh "key" in
  let o := fresh "o" in
  let Hr := fresh "Hr" in
  intros key; unfold releases_on_failure, rejected; split;
  [ intros Hr; unfold f, status, events, object; recall;
    destruct (null_with_length _ _); destruct key; cbn in Hr |- *;
    try discriminate; repeat split
  | destruct key as [key|]; [| rewrite orb_true_r; discriminate ];
    rewrite orb_false_r; intros Hr;
    set (o := f _ _ _ _ _ _ _) || set (o := f _ _ _ _ _ _);
    unfold status, events, object, closing;
    name_outcome o; evaluate f;
    first [ discriminate
          | intros _; split;
            [ reflexivity
            | first [ eexists; reflexivity
                    | eexists (Build_DhParameters _ _); reflexivity ] ] ] ].

Ltac expose_resolution :=
  unfold resolves_by_priority, not_found_when_unmatched, needs_no_password,
    first_match, status, events, object, rsa_private_labels,
    dsa_private_labels, ec_private_labels, eddsa_private_labels,
    rsa_public_labels, generic_public_labels;
  cbn [attempts find map]; unfold sizing_ok, sizing_error.

Ltac prove_resolution f :=
  let key := fresh "key" in
  let o := fresh "o" in
  intros key;
  set (o := f _ _ _ _ _ _ _) || set (o := f _ _ _ _ _ _);
  expose_resolution; name_outcome o; evaluate f;
  repeat split; try reflexivity; try discriminate;
  try (intros ? [<- | []]; reflexivity); try (intros ? []).

Ltac prove_unsupported f :=
  let key := fresh "key" in
  let o := fresh "o" in
  intros key;
  set (o := f _ _ _ _ _ _ _);
  expose_resolution; name_outcome o; evaluate f;
  first [ discriminate | intros _; repeat split ].

Ltac prove_unmatched f :=
  let key := fresh "key" in
  let pw := fresh "password" in
  let o := fresh "o" in
  let Hl := fresh "Hl" in
  intros Hl pw key;
  set (o := f _ _ _ _ _ _ _);
  unfold status; revert Hl; name_outcome o; evaluate f;
  intros Hl; try reflexivity; exfalso;
  match goal with
  | Hs : is_ok (dec_error (pemDecodeFile _ _ ?l false false false)) = true
    |- _ =>
      let Hf := fresh in
      assert (Hf : sizing_ok _ _ l = false) by (apply Hl; cbn; tauto);
      unfold sizing_ok, sizing_error in Hf; rewrite Hs in Hf;
      discriminate Hf
  end.

Ltac prove_settled f :=
  let key := fresh "key" in
  let o := fresh "o" in
  let rest := fresh "rest" in
  let Hm := fresh "Hm" in
  intros key;
  set (o := f _ _ _ _ _ _ _);
  unfold settles_on_match, status, events; name_outcome o; evaluate f;
  intros rest Hm; try discriminate Hm;
  injection Hm as <-; cbn; recall_status; cbn;
  repeat split; try reflexivity; try discriminate;
  intros _;
  first [ left; reflexivity
        | left; ok_is_no_error
        | right; repeat split; solve [ assumption | reflexivity ] ].

Ltac prove_exclusive f :=
  let key := fresh "key" in
  let o := fresh "o" in
  let l := fresh "l" in
  let Hm := fresh "Hm" in
  intros key;
  set (o := f _ _ _ _ _ _ _);
  unfold exclusive_detection, status, events; name_outcome o; evaluate f;
  (split; [ reflexivity |]); (split; [ reflexivity |]);
  (split; [ reflexivity |]);
  intros l Hm; try discriminate Hm;
  injection Hm as <-;
  repeat split; try reflexivity; try discriminate;
  try (cbn; intros; tauto);
  try (cbn; intros [Hm | []]; discriminate Hm).

Ltac prove_password_free f :=
  let key := fresh "key" in
  let o := fresh "o" in
  let Hm := fresh "Hm" in
  let l := fresh "l" in
  let Hin := fresh "Hin" in
  let Hc := fresh "Hc" in
  intros key Hm; revert Hm;
  set (o := f _ _ _ _ _ _ _) at 1;
  expose_resolution; name_outcome o;
  unfold f, call_pemDecodeFile, call_cryptoAllocMem, call_cryptoFreeMem,
    call_pemCompareString, call_pemDecryptMessage, call_pkcs5Decrypt,
    call_parse, call_import, call_free;
  run_outcome; finish; try reflexivity;
  intros [Hm | (l & Hin & Hm & Hc)];
  try discriminate Hm;
  cbn in Hin; try contradiction;
  destruct Hin as [<- | []];
  first [ discriminate Hm | congruence ].





Ltac set_outcome f o :=
  first [ set (o := f _ _ _ _ _ _ _ _)
        | set (o := f _ _ _ _ _ _ _)
        | set (o := f _ _ _ _ _ _)
        | set (o := f _ _ _ _ _) ].

Ltac prove_one_buffer f :=
  let o := fresh "o" in
  intros; set_outcome f o;
  unfold one_buffer, events; name_outcome o; evaluate f;
  split; reflexivity.

Ltac prove_release_exactly f :=
  let o := fresh "o" in
  intros; set_outcome f o;
  unfold releases_exactly_on_failure, rejected, status, events;
  name_outcome o; evaluate f; reflexivity.

Ltac prove_success_tail f :=
  let key := fresh "key" in
  let o := fresh "o" in
  intros key o;
  unfold status, events, closing; name_outcome o; evaluate f;
  first [ discriminate | intros _; reflexivity ].

Ltac expose_more_resolution :=
  unfold resolves_by_priority, not_found_when_unmatched, first_match,
    status, events, object, ec_parameters_labels, rsa_public_labels,
    generic_public_labels, public_type_labels, private_type_labels;
  cbn [attempts find map app]; unfold sizing_ok, sizing_error.

Ltac prove_more_resolution f :=
  let o := fresh "o" in
  cbv zeta; intros; set_outcome f o;
  expose_more_resolution; name_outcome o; evaluate f;
  repeat split; try reflexivity; try discriminate;
  try (intros ? [<- | []]; reflexivity); try (intros ? []).

Ltac prove_no_decryption f :=
  let o := fresh "o" in
  cbv zeta; intros; set_outcome f o;
  unfold never_decrypts, parses_decoded_payload, events;
  name_outcome o; evaluate f;
  repeat split; try reflexivity; cbn; intros; tauto.

Ltac prove_known_iff_success f :=
  let o := fresh "o" in
  intros; set_outcome f o;
  unfold known_iff_success, status, object, events;
  name_outcome o; evaluate f;
  eexists; (split; [ reflexivity |]); recall; reflexivity.

Ltac prove_type_resolution f :=
  let o := fresh "o" in
  cbv zeta; intros;
  match goal with c : Config |- _ => destruct c as [? [] [] [] ? ? ?] end;
  set_outcome f o;
  unfold public_type_labels, private_type_labels;
  cbn [RSA_SUPPORT DSA_SUPPORT EC_SUPPORT];
  expose_more_resolution; name_outcome o; evaluate f;
  repeat split; try reflexivity; try discriminate;
  try (intros ? [<- | []]; reflexivity); try (intros ? []).

Ltac prove_forwarded f :=
  let o := fresh "o" in
  let key := fresh "key" in
  cbv zeta; intros key; set_outcome f o;
  expose_more_resolution; name_outcome o; evaluate f;
  first [ discriminate | intros _; reflexivity ].

Ltac prove_reported_size f :=
  let o := fresh "o" in
  let Hin := fresh "Hin" in
  intros; set_outcome f o;
  unfold allocates_reported_size, events; name_outcome o; evaluate f;
  intros ? Hin; cbn in Hin;
  first [ contradiction
        | destruct Hin as [<- | []]; eexists; split; reflexivity ].

Ltac prove_decrypts_once f :=
  let o := fresh "o" in
  intros; set_outcome f o;
  unfold decrypts_once_with, events; name_outcome o; evaluate f;
  first [ left; reflexivity | right; reflexivity ].

Ltac prove_settled_more f :=
  let o := fresh "o" in
  let rest := fresh "rest" in
  let Hm := fresh "Hm" in
  intros; set_outcome f o;
  unfold settles_on_match, status, events; name_outcome o; evaluate f;
  intros rest Hm; try discriminate Hm;
  injection Hm as <-; cbn; recall_status; cbn;
  repeat split; try reflexivity; try discriminate;
  intros _;
  first [ left; reflexivity | left; ok_is_no_error ].

Ltac prove_matched f :=
  let o := fresh "o" in
  intros; set_outcome f o;
  unfold first_match, events, rsa_private_labels, dsa_private_labels,
    ec_private_labels, eddsa_private_labels, rsa_public_labels,
    public_type_labels, private_type_labels;
  recall; cbn [find app]; unfold sizing_ok, sizing_error;
  name_outcome o; evaluate f; reflexivity.

(** ** Theorems *)

(** The routines run on the sample collaborators: an unencrypted legacy
    container is imported; an encrypted PKCS #8 container is imported with
    the right password and fails with [ERROR_DECRYPTION_FAILED], the key
    released, with another. *)
Example legacy_container_is_imported :
  status (@pemImportRsaPrivateKey Sample.types Sample.collaborators
            all_enabled (Some Sample.rsa_pem) (Sample.len Sample.rsa_pem)
            None (Some None)) = NO_ERROR.
Proof. vm_compute. reflexivity. Qed.

Example wrapped_container_right_password :
  status (@pemImportRsaPrivateKey Sample.types Sample.collaborators
            all_enabled (Some Sample.wrapped_pem)
            (Sample.len Sample.wrapped_pem) (Some "secret") (Some None))
  = NO_ERROR.
Proof. vm_compute. reflexivity. Qed.

Example wrapped_container_wrong_password :
  let o := @pemImportRsaPrivateKey Sample.types Sample.collaborators
             all_enabled (Some Sample.wrapped_pem)
             (Sample.len Sample.wrapped_pem) (Some "wrong")
             (Some Sample.held) in
  status o = ERROR_DECRYPTION_FAILED /\ object o = Some None.
Proof. vm_compute. split; reflexivity. Qed.

(** C1 (as amended).  A key-import call that the parameter check turns away
    returns [ERROR_INVALID_PARAMETER] without calling anything and leaves
    the caller's key object as it was.  Every other call that returns a
    non-zero status calls the object's free routine last, and the object
    comes back as that routine leaves it: no partly filled key escapes. *)
Theorem failing_import_releases_key {T : Types} {C : Collaborators}
    (cfg : Config) (input : option string) (length : N)
    (password : option string) :
  implemented cfg ->
  (forall key, releases_on_failure input length rsaFreePrivateKey
     [EvFree rsaFreePrivateKey_] key
     (pemImportRsaPrivateKey cfg input length password key)) /\
  (forall key, releases_on_failure input length rsaFreePublicKey
     [EvFree rsaFreePublicKey_] key
     (pemImportRsaPublicKey cfg input length key)) /\
  (forall key, releases_on_failure input length dsaFreePrivateKey
     [EvFree dsaFreePrivateKey_] key
     (pemImportDsaPrivateKey cfg input length password key)) /\
  (forall key, releases_on_failure input length dsaFreePublicKey
     [EvFree dsaFreePublicKey_] key
     (pemImportDsaPublicKey cfg input length key)) /\
  (forall key, releases_on_failure input length ecFreePrivateKey
     [EvFree ecFreePrivateKey_] key
     (pemImportEcPrivateKey cfg input length password key)) /\
  (forall key, releases_on_failure input length ecFreePublicKey
     [EvFree ecFreePublicKey_] key
     (pemImportEcPublicKey cfg input length key)) /\
  (forall key, releases_on_failure input length eddsaFreePrivateKey
     [EvFree eddsaFreePrivateKey_] key
     (pemImportEddsaPrivateKey cfg input length password key)) /\
  (forall key, releases_on_failure input length eddsaFreePublicKey
     [EvFree eddsaFreePublicKey_] key
     (pemImportEddsaPublicKey cfg input length key)) /\
  (forall params, releases_on_failure input length free_dh_fields
     [EvFree mpiFree_p; EvFree mpiFree_g] params
     (pemImportDhParameters cfg input length params)).
Proof.
  intros (? & ? & ? & ? & ?).
  split; [ prove_release (@pemImportRsaPrivateKey) |].
  split; [ prove_release (@pemImportRsaPublicKey) |].
  split; [ prove_release (@pemImportDsaPrivateKey) |].
  split; [ prove_release (@pemImportDsaPublicKey) |].
  split; [ prove_release (@pemImportEcPrivateKey) |].
  split; [ prove_release (@pemImportEcPublicKey) |].
  split; [ prove_release (@pemImportEddsaPrivateKey) |].
  split; [ prove_release (@pemImportEddsaPublicKey) |].
  prove_release (@pemImportDhParameters).
Qed.

(** C1, witness: a text without a private key; the held key is released. *)
Lemma failing_import_releases_key_witness :
  let o := @pemImportRsaPrivateKey Sample.types Sample.collaborators
             all_enabled (Some Sample.other_pem)
             (Sample.len Sample.other_pem) None (Some Sample.held) in
  implemented all_enabled /\
  closing 1 (events o) = [EvFree rsaFreePrivateKey_] /\
  exists k, object o = Some (@rsaFreePrivateKey _ Sample.collaborators k).
Proof.
  assert (Hc : implemented all_enabled) by (repeat split).
  split; [ exact Hc |].
  apply (proj2 (proj1 (@failing_import_releases_key Sample.types
    Sample.collaborators all_enabled (Some Sample.other_pem)
    (Sample.len Sample.other_pem) None Hc) (Some Sample.held)));
    reflexivity.
Defined.

(** C1, counterexample to the statement as the specification words it: a
    call with a [NULL] input
    of length 1 and a key object that holds material returns a non-zero
    status, and no free routine has been called. *)
Lemma rejected_import_skips_release :
  let o := @pemImportRsaPrivateKey Sample.types Sample.collaborators
             all_enabled None 1 None (Some Sample.held) in
  ~ (is_ok (status o) = false -> existsb is_free (events o) = true).
Proof.
  cbn. intros H. specialize (H eq_refl). discriminate H.
Qed.

(** C2.  Each private-key import sizes its candidate labels in the fixed
    order (the algorithm's own label where it has one, then "PRIVATE KEY",
    then "ENCRYPTED PRIVATE KEY") and stops at the first whose sizing pass
    succeeds; that label is the one decoded.  When no candidate's sizing
    pass succeeds the call returns [ERROR_END_OF_FILE]. *)
Theorem private_key_labels_in_priority_order {T : Types} {C : Collaborators}
    (cfg : Config) (input : option string) (length : N)
    (password : option string) :
  implemented cfg ->
  null_with_length input length = false ->
  (forall key,
     let o := pemImportRsaPrivateKey cfg input length password (Some key) in
     resolves_by_priority input length rsa_private_labels o /\
     not_found_when_unmatched input length rsa_private_labels o) /\
  (forall key,
     let o := pemImportDsaPrivateKey cfg input length password (Some key) in
     resolves_by_priority input length dsa_private_labels o /\
     not_found_when_unmatched input length dsa_private_labels o) /\
  (forall key,
     let o := pemImportEcPrivateKey cfg input length password (Some key) in
     resolves_by_priority input length ec_private_labels o /\
     not_found_when_unmatched input length ec_private_labels o) /\
  (forall key,
     let o := pemImportEddsaPrivateKey cfg input length password (Some key) in
     resolves_by_priority input length eddsa_private_labels o /\
     not_found_when_unmatched input length eddsa_private_labels o).
Proof.
  intros (? & ? & ? & ? & ?) Hn.
  split; [ prove_resolution (@pemImportRsaPrivateKey) |].
  split; [ prove_resolution (@pemImportDsaPrivateKey) |].
  split; [ prove_resolution (@pemImportEcPrivateKey) |].
  prove_resolution (@pemImportEddsaPrivateKey).
Qed.

(** C2, witness: a PKCS #8 container given to the RSA import. *)
Lemma private_key_labels_in_priority_order_witness :
  let o := @pemImportRsaPrivateKey Sample.types Sample.collaborators
             all_enabled (Some Sample.pkcs8_pem)
             (Sample.len Sample.pkcs8_pem) None (Some None) in
  implemented all_enabled /\
  null_with_length (Some Sample.pkcs8_pem) (Sample.len Sample.pkcs8_pem)
  = false /\
  sizing_labels (events o) = ["RSA PRIVATE KEY"; "PRIVATE KEY"] /\
  matched (events o) = Some "PRIVATE KEY".
Proof.
  cbv zeta.
  assert (Hc : implemented all_enabled) by (repeat split).
  assert (Hn : null_with_length (Some Sample.pkcs8_pem)
                 (Sample.len Sample.pkcs8_pem) = false) by reflexivity.
  destruct (proj1 (@private_key_labels_in_priority_order Sample.types
    Sample.collaborators all_enabled (Some Sample.pkcs8_pem)
    (Sample.len Sample.pkcs8_pem) None Hc Hn) None)
    as [(Hs & Hm & _) _].
  split; [ exact Hc |]. split; [ exact Hn |].
  split.
  - exact (eq_trans (f_equal (map fst) Hs) eq_refl).
  - exact (eq_trans Hm eq_refl).
Defined.

(** C4 (as amended).  [pemImportRsaPublicKey] sizes "RSA PUBLIC KEY" first
    and "PUBLIC KEY" only when that fails; the DSA, EC and EdDSA imports
    size "PUBLIC KEY" and nothing else. *)
Theorem public_key_labels {T : Types} {C : Collaborators}
    (cfg : Config) (input : option string) (length : N) :
  implemented cfg ->
  null_with_length input length = false ->
  (forall key, resolves_by_priority input length rsa_public_labels
     (pemImportRsaPublicKey cfg input length (Some key))) /\
  (forall key, resolves_by_priority input length generic_public_labels
     (pemImportDsaPublicKey cfg input length (Some key))) /\
  (forall key, resolves_by_priority input length generic_public_labels
     (pemImportEcPublicKey cfg input length (Some key))) /\
  (forall key, resolves_by_priority input length generic_public_labels
     (pemImportEddsaPublicKey cfg input length (Some key))).
Proof.
  intros (? & ? & ? & ? & ?) Hn.
  split; [ prove_resolution (@pemImportRsaPublicKey) |].
  split; [ prove_resolution (@pemImportDsaPublicKey) |].
  split; [ prove_resolution (@pemImportEcPublicKey) |].
  prove_resolution (@pemImportEddsaPublicKey).
Qed.

(** C4, witness: the DSA import sizes "PUBLIC KEY" only. *)
Lemma public_key_labels_witness :
  let o := @pemImportDsaPublicKey Sample.types Sample.collaborators
             all_enabled (Some Sample.public_pem)
             (Sample.len Sample.public_pem) (Some None) in
  implemented all_enabled /\
  null_with_length (Some Sample.public_pem) (Sample.len Sample.public_pem)
  = false /\
  sizing_labels (events o) = ["PUBLIC KEY"].
Proof.
  cbv zeta.
  assert (Hc : implemented all_enabled) by (repeat split).
  assert (Hn : null_with_length (Some Sample.public_pem)
                 (Sample.len Sample.public_pem) = false) by reflexivity.
  destruct (proj1 (proj2 (@public_key_labels Sample.types
    Sample.collaborators all_enabled (Some Sample.public_pem)
    (Sample.len Sample.public_pem) Hc Hn)) None) as (Hs & _).
  split; [ exact Hc |]. split; [ exact Hn |].
  exact (eq_trans (f_equal (map fst) Hs) eq_refl).
Defined.

(** C4, counterexample to the statement as the specification words it: given a container labelled
    "DSA PUBLIC KEY", the DSA import never sizes that label; its first and
    only attempt is "PUBLIC KEY". *)
Lemma dsa_import_skips_specific_label :
  let o := @pemImportDsaPublicKey Sample.types Sample.collaborators
             all_enabled (Some Sample.dsa_public_pem)
             (Sample.len Sample.dsa_public_pem) (Some None) in
  ~ (hd_error (sizing_labels (events o)) = Some "DSA PUBLIC KEY").
Proof.
  cbv. intros H. discriminate H.
Qed.

(** C3 (as amended).  In a build without encrypted-key support, a
    private-key import that matches "ENCRYPTED PRIVATE KEY" returns
    [ERROR_DECRYPTION_FAILED], the code of a decryption failure, after
    releasing the key object; no separate code tells the two apart. *)
Theorem encrypted_label_without_support {T : Types} {C : Collaborators}
    (cfg : Config) (input : option string) (length : N)
    (password : option string) :
  implemented cfg ->
  PEM_ENCRYPTED_KEY_SUPPORT cfg = false ->
  null_with_length input length = false ->
  (forall key,
     let o := pemImportRsaPrivateKey cfg input length password (Some key) in
     first_match input length rsa_private_labels
     = Some "ENCRYPTED PRIVATE KEY" ->
     status o = ERROR_DECRYPTION_FAILED /\
     error_kind (status o) = Some DecryptionFailure /\
     closing 1 (events o) = [EvFree rsaFreePrivateKey_]) /\
  (forall key,
     let o := pemImportDsaPrivateKey cfg input length password (Some key) in
     first_match input length dsa_private_labels
     = Some "ENCRYPTED PRIVATE KEY" ->
     status o = ERROR_DECRYPTION_FAILED /\
     error_kind (status o) = Some DecryptionFailure /\
     closing 1 (events o) = [EvFree dsaFreePrivateKey_]) /\
  (forall key,
     let o := pemImportEcPrivateKey cfg input length password (Some key) in
     first_match input length ec_private_labels
     = Some "ENCRYPTED PRIVATE KEY" ->
     status o = ERROR_DECRYPTION_FAILED /\
     error_kind (status o) = Some DecryptionFailure /\
     closing 1 (events o) = [EvFree ecFreePrivateKey_]) /\
  (forall key,
     let o := pemImportEddsaPrivateKey cfg input length password (Some key) in
     first_match input length eddsa_private_labels
     = Some "ENCRYPTED PRIVATE KEY" ->
     status o = ERROR_DECRYPTION_FAILED /\
     error_kind (status o) = Some DecryptionFailure /\
     closing 1 (events o) = [EvFree eddsaFreePrivateKey_]).
Proof.
  intros (? & ? & ? & ? & ?) Hp Hn.
  split; [ prove_unsupported (@pemImportRsaPrivateKey) |].
  split; [ prove_unsupported (@pemImportDsaPrivateKey) |].
  split; [ prove_unsupported (@pemImportEcPrivateKey) |].
  prove_unsupported (@pemImportEddsaPrivateKey).
Qed.

(** C3, witness: an encrypted PKCS #8 container, encrypted keys compiled
    out. *)
Lemma encrypted_label_without_support_witness :
  let o := @pemImportRsaPrivateKey Sample.types Sample.collaborators
             no_encrypted_keys (Some Sample.wrapped_pem)
             (Sample.len Sample.wrapped_pem) (Some "secret") (Some None) in
  implemented no_encrypted_keys /\
  PEM_ENCRYPTED_KEY_SUPPORT no_encrypted_keys = false /\
  null_with_length (Some Sample.wrapped_pem) (Sample.len Sample.wrapped_pem)
  = false /\
  @first_match Sample.types Sample.collaborators (Some Sample.wrapped_pem)
    (Sample.len Sample.wrapped_pem) rsa_private_labels
  = Some "ENCRYPTED PRIVATE KEY" /\
  status o = ERROR_DECRYPTION_FAILED.
Proof.
  cbv zeta.
  assert (Hc : implemented no_encrypted_keys) by (repeat split).
  assert (Hn : null_with_length (Some Sample.wrapped_pem)
                 (Sample.len Sample.wrapped_pem) = false) by reflexivity.
  assert (Hm : @first_match Sample.types Sample.collaborators
                 (Some Sample.wrapped_pem) (Sample.len Sample.wrapped_pem)
                 rsa_private_labels = Some "ENCRYPTED PRIVATE KEY")
    by (vm_compute; reflexivity).
  split; [ exact Hc |]. split; [ reflexivity |]. split; [ exact Hn |].
  split; [ exact Hm |].
  exact (proj1 (proj1 (@encrypted_label_without_support Sample.types
    Sample.collaborators no_encrypted_keys (Some Sample.wrapped_pem)
    (Sample.len Sample.wrapped_pem) (Some "secret") Hc eq_refl Hn)
    None Hm)).
Defined.

(** C3, counterexample to the statement as the specification words it: with encrypted keys compiled
    out, the import of an encrypted PKCS #8 container matches
    "ENCRYPTED PRIVATE KEY" and reports a failure of the decryption-failure
    kind, not a kind of its own. *)
Lemma unsupported_is_not_a_kind_of_its_own :
  let o := @pemImportRsaPrivateKey Sample.types Sample.collaborators
             no_encrypted_keys (Some Sample.wrapped_pem)
             (Sample.len Sample.wrapped_pem) (Some "secret") (Some None) in
  matched (events o) = Some "ENCRYPTED PRIVATE KEY" /\
  error_kind (status o) = Some DecryptionFailure /\
  ~ (error_kind (status o) = Some EncryptionUnsupported).
Proof.
  cbv zeta. split; [ vm_compute; reflexivity |].
  split; [ vm_compute; reflexivity |].
  vm_compute. intros H. discriminate H.
Qed.

(** C8.  When the sizing pass fails for every candidate label of the
    requested category (the text holds none of them), the private-key
    import returns [ERROR_END_OF_FILE], whatever the password argument,
    [NULL] included. *)
Theorem unmatched_private_key_not_found {T : Types} {C : Collaborators}
    (cfg : Config) (input : option string) (length : N) :
  implemented cfg ->
  null_with_length input length = false ->
  ((forall l, In l rsa_private_labels -> sizing_ok input length l = false) ->
   forall password key,
     status (pemImportRsaPrivateKey cfg input length password (Some key))
     = ERROR_END_OF_FILE) /\
  ((forall l, In l dsa_private_labels -> sizing_ok input length l = false) ->
   forall password key,
     status (pemImportDsaPrivateKey cfg input length password (Some key))
     = ERROR_END_OF_FILE) /\
  ((forall l, In l ec_private_labels -> sizing_ok input length l = false) ->
   forall password key,
     status (pemImportEcPrivateKey cfg input length password (Some key))
     = ERROR_END_OF_FILE) /\
  ((forall l, In l eddsa_private_labels -> sizing_ok input length l = false) ->
   forall password key,
     status (pemImportEddsaPrivateKey cfg input length password (Some key))
     = ERROR_END_OF_FILE).
Proof.
  intros (? & ? & ? & ? & ?) Hn.
  split; [ prove_unmatched (@pemImportRsaPrivateKey) |].
  split; [ prove_unmatched (@pemImportDsaPrivateKey) |].
  split; [ prove_unmatched (@pemImportEcPrivateKey) |].
  prove_unmatched (@pemImportEddsaPrivateKey).
Qed.

(** C8, witness: a certificate given to the RSA import, with a password. *)
Lemma unmatched_private_key_not_found_witness :
  implemented all_enabled /\
  null_with_length (Some Sample.other_pem) (Sample.len Sample.other_pem)
  = false /\
  (forall l, In l rsa_private_labels ->
     @sizing_ok Sample.types Sample.collaborators (Some Sample.other_pem)
       (Sample.len Sample.other_pem) l = false) /\
  status (@pemImportRsaPrivateKey Sample.types Sample.collaborators
            all_enabled (Some Sample.other_pem)
            (Sample.len Sample.other_pem) (Some "secret") (Some None))
  = ERROR_END_OF_FILE.
Proof.
  assert (Hc : implemented all_enabled) by (repeat split).
  assert (Hn : null_with_length (Some Sample.other_pem)
                 (Sample.len Sample.other_pem) = false) by reflexivity.
  assert (Hl : forall l, In l rsa_private_labels ->
     @sizing_ok Sample.types Sample.collaborators (Some Sample.other_pem)
       (Sample.len Sample.other_pem) l = false).
  { intros l [<- | [<- | [<- | []]]]; vm_compute; reflexivity. }
  split; [ exact Hc |]. split; [ exact Hn |]. split; [ exact Hl |].
  exact (proj1 (@unmatched_private_key_not_found Sample.types
    Sample.collaborators all_enabled (Some Sample.other_pem)
    (Sample.len Sample.other_pem) Hc Hn) Hl (Some "secret") None).
Defined.

(** C5.  Once the sizing pass of a candidate label has succeeded, a
    private-key import sizes no further label: whichever later stage fails
    first (allocation, filling pass, decryption, parsing, import), the call
    returns that stage's status; so at most one candidate is matched. *)
Theorem no_fallthrough_after_match {T : Types} {C : Collaborators}
    (cfg : Config) (input : option string) (length : N)
    (password : option string) :
  implemented cfg ->
  null_with_length input length = false ->
  (forall key, settles_on_match cfg
     (pemImportRsaPrivateKey cfg input length password (Some key))) /\
  (forall key, settles_on_match cfg
     (pemImportDsaPrivateKey cfg input length password (Some key))) /\
  (forall key, settles_on_match cfg
     (pemImportEcPrivateKey cfg input length password (Some key))) /\
  (forall key, settles_on_match cfg
     (pemImportEddsaPrivateKey cfg input length password (Some key))).
Proof.
  intros (? & ? & ? & ? & ?) Hn.
  split; [ prove_settled (@pemImportRsaPrivateKey) |].
  split; [ prove_settled (@pemImportDsaPrivateKey) |].
  split; [ prove_settled (@pemImportEcPrivateKey) |].
  prove_settled (@pemImportEddsaPrivateKey).
Qed.

(** C5, witness: a legacy container encrypted under another password; the
    call returns the decryption status and never sizes "PRIVATE KEY". *)
Lemma no_fallthrough_after_match_witness :
  let o := @pemImportRsaPrivateKey Sample.types Sample.collaborators
             all_enabled (Some Sample.rsa_encrypted_pem)
             (Sample.len Sample.rsa_encrypted_pem) (Some "guess")
             (Some None) in
  implemented all_enabled /\
  null_with_length (Some Sample.rsa_encrypted_pem)
    (Sample.len Sample.rsa_encrypted_pem) = false /\
  sizing_labels (events o) = ["RSA PRIVATE KEY"] /\
  status o = ERROR_DECRYPTION_FAILED.
Proof.
  cbv zeta.
  assert (Hc : implemented all_enabled) by (repeat split).
  assert (Hn : null_with_length (Some Sample.rsa_encrypted_pem)
                 (Sample.len Sample.rsa_encrypted_pem) = false)
    by reflexivity.
  split; [ exact Hc |]. split; [ exact Hn |].
  split; [ vm_compute; reflexivity |].
  set (o := @pemImportRsaPrivateKey Sample.types Sample.collaborators
              all_enabled (Some Sample.rsa_encrypted_pem)
              (Sample.len Sample.rsa_encrypted_pem) (Some "guess")
              (Some None)).
  set (rest := match after_match (events o) with
               | Some r => r
               | None => []
               end).
  assert (Hr : after_match (events o) = Some rest)
    by (vm_compute; reflexivity).
  destruct (proj1 (@no_fallthrough_after_match Sample.types
    Sample.collaborators all_enabled (Some Sample.rsa_encrypted_pem)
    (Sample.len Sample.rsa_encrypted_pem) (Some "guess") Hc Hn) None
    rest Hr) as (_ & Hf & _).
  exact (eq_trans (Hf eq_refl) eq_refl).
Defined.

(** C6.  Per call the two detection mechanisms exclude one another.  A
    container matched by a legacy label meets only the header test, and
    [pemDecryptMessage] runs only right after the header's Proc-Type
    compared equal to "ENCRYPTED"; one matched by "ENCRYPTED PRIVATE KEY"
    meets only the envelope parser followed by [pkcs5Decrypt], with no
    header test; one matched by "PRIVATE KEY" meets neither, and the
    parser receives the decoded payload as it is. *)
Theorem detection_paths_are_exclusive {T : Types} {C : Collaborators}
    (cfg : Config) (input : option string) (length : N)
    (password : option string) :
  implemented cfg ->
  null_with_length input length = false ->
  (forall key, exclusive_detection ["RSA PRIVATE KEY"]
     (pemImportRsaPrivateKey cfg input length password (Some key))) /\
  (forall key, exclusive_detection ["DSA PRIVATE KEY"]
     (pemImportDsaPrivateKey cfg input length password (Some key))) /\
  (forall key, exclusive_detection ["EC PRIVATE KEY"]
     (pemImportEcPrivateKey cfg input length password (Some key))) /\
  (forall key, exclusive_detection []
     (pemImportEddsaPrivateKey cfg input length password (Some key))).
Proof.
  intros (? & ? & ? & ? & ?) Hn.
  split; [ prove_exclusive (@pemImportRsaPrivateKey) |].
  split; [ prove_exclusive (@pemImportDsaPrivateKey) |].
  split; [ prove_exclusive (@pemImportEcPrivateKey) |].
  prove_exclusive (@pemImportEddsaPrivateKey).
Qed.

(** C6, witness: an encrypted legacy container uses the legacy mechanism
    and not the wrapped one. *)
Lemma detection_paths_are_exclusive_witness :
  let o := @pemImportRsaPrivateKey Sample.types Sample.collaborators
             all_enabled (Some Sample.rsa_encrypted_pem)
             (Sample.len Sample.rsa_encrypted_pem) (Some "secret")
             (Some None) in
  implemented all_enabled /\
  null_with_length (Some Sample.rsa_encrypted_pem)
    (Sample.len Sample.rsa_encrypted_pem) = false /\
  uses_legacy (events o) = true /\ uses_wrapped (events o) = false.
Proof.
  cbv zeta.
  assert (Hc : implemented all_enabled) by (repeat split).
  assert (Hn : null_with_length (Some Sample.rsa_encrypted_pem)
                 (Sample.len Sample.rsa_encrypted_pem) = false)
    by reflexivity.
  split; [ exact Hc |]. split; [ exact Hn |].
  split; [ vm_compute; reflexivity |].
  refine (proj1 (proj2 (proj2 (proj2 (proj1
    (@detection_paths_are_exclusive Sample.types Sample.collaborators
       all_enabled (Some Sample.rsa_encrypted_pem)
       (Sample.len Sample.rsa_encrypted_pem) (Some "secret") Hc Hn)
    None))) "RSA PRIVATE KEY" _) _).
  - vm_compute; reflexivity.
  - left; reflexivity.
Defined.

(** C7.  A password that is not needed is ignored.  When the input matches
    "PRIVATE KEY", or a legacy label whose header has no "ENCRYPTED"
    marker, two calls of the same private-key import that differ only in
    the password argument ([NULL] allowed) return the same status and
    leave the same key, having made the same collaborator calls. *)
Theorem unneeded_password_is_ignored {T : Types} {C : Collaborators}
    (cfg : Config) (input : option string) (length : N)
    (password1 password2 : option string) :
  (forall key,
     needs_no_password input length rsa_private_labels ["RSA PRIVATE KEY"] ->
     pemImportRsaPrivateKey cfg input length password1 key
     = pemImportRsaPrivateKey cfg input length password2 key) /\
  (forall key,
     needs_no_password input length dsa_private_labels ["DSA PRIVATE KEY"] ->
     pemImportDsaPrivateKey cfg input length password1 key
     = pemImportDsaPrivateKey cfg input length password2 key) /\
  (forall key,
     needs_no_password input length ec_private_labels ["EC PRIVATE KEY"] ->
     pemImportEcPrivateKey cfg input length password1 key
     = pemImportEcPrivateKey cfg input length password2 key) /\
  (forall key,
     needs_no_password input length eddsa_private_labels [] ->
     pemImportEddsaPrivateKey cfg input length password1 key
     = pemImportEddsaPrivateKey cfg input length password2 key).
Proof.
  split; [ prove_password_free (@pemImportRsaPrivateKey) |].
  split; [ prove_password_free (@pemImportDsaPrivateKey) |].
  split; [ prove_password_free (@pemImportEcPrivateKey) |].
  prove_password_free (@pemImportEddsaPrivateKey).
Qed.

(** C7, witness: an unencrypted legacy container, once without a password
    and once with one. *)
Lemma unneeded_password_is_ignored_witness :
  @needs_no_password Sample.types Sample.collaborators (Some Sample.rsa_pem)
    (Sample.len Sample.rsa_pem) rsa_private_labels ["RSA PRIVATE KEY"] /\
  @pemImportRsaPrivateKey Sample.types Sample.collaborators all_enabled
    (Some Sample.rsa_pem) (Sample.len Sample.rsa_pem) None (Some None)
  = @pemImportRsaPrivateKey Sample.types Sample.collaborators all_enabled
      (Some Sample.rsa_pem) (Sample.len Sample.rsa_pem) (Some "unused")
      (Some None).
Proof.
  assert (Hm : @needs_no_password Sample.types Sample.collaborators
                 (Some Sample.rsa_pem) (Sample.len Sample.rsa_pem)
                 rsa_private_labels ["RSA PRIVATE KEY"]).
  { right. exists "RSA PRIVATE KEY".
    split; [ left; reflexivity |].
    split; vm_compute; reflexivity. }
  split; [ exact Hm |].
  exact (proj1 (@unneeded_password_is_ignored Sample.types
    Sample.collaborators all_enabled (Some Sample.rsa_pem)
    (Sample.len Sample.rsa_pem) None (Some "unused")) (Some None) Hm).
Defined.






(** ** Further properties *)

(** X1.  Every routine that allocates asks for at most one buffer per
    call; the filling pass, decryption, parsing and the import routine run
    while it is held; it is released before the routine returns, on
    success and on every failure, and the key's free routine runs only
    after the release. *)
Theorem buffer_is_held_and_released {T : Types} {C : Collaborators}
    (cfg : Config) (input : option string) (length : N)
    (password : option string) :
  (forall params, one_buffer (pemImportDhParameters cfg input length params)) /\
  (forall key, one_buffer (pemImportRsaPublicKey cfg input length key)) /\
  (forall key,
     one_buffer (pemImportRsaPrivateKey cfg input length password key)) /\
  (forall key, one_buffer (pemImportDsaPublicKey cfg input length key)) /\
  (forall key,
     one_buffer (pemImportDsaPrivateKey cfg input length password key)) /\
  (forall params, one_buffer (pemImportEcParameters cfg input length params)) /\
  (forall key, one_buffer (pemImportEcPublicKey cfg input length key)) /\
  (forall key,
     one_buffer (pemImportEcPrivateKey cfg input length password key)) /\
  (forall key, one_buffer (pemImportEddsaPublicKey cfg input length key)) /\
  (forall key,
     one_buffer (pemImportEddsaPrivateKey cfg input length password key)) /\
  (forall keyType,
     one_buffer (pemGetPublicKeyType cfg input length keyType)) /\
  (forall keyType,
     one_buffer (pemGetPrivateKeyType cfg input length keyType)).
Proof.
  split; [ prove_one_buffer (@pemImportDhParameters) |].
  split; [ prove_one_buffer (@pemImportRsaPublicKey) |].
  split; [ prove_one_buffer (@pemImportRsaPrivateKey) |].
  split; [ prove_one_buffer (@pemImportDsaPublicKey) |].
  split; [ prove_one_buffer (@pemImportDsaPrivateKey) |].
  split; [ prove_one_buffer (@pemImportEcParameters) |].
  split; [ prove_one_buffer (@pemImportEcPublicKey) |].
  split; [ prove_one_buffer (@pemImportEcPrivateKey) |].
  split; [ prove_one_buffer (@pemImportEddsaPublicKey) |].
  split; [ prove_one_buffer (@pemImportEddsaPrivateKey) |].
  split; [ prove_one_buffer (@pemGetPublicKeyType) |].
  prove_one_buffer (@pemGetPrivateKeyType).
Qed.

(** X2.  In each import routine the key's free routine is called in
    exactly these calls: the algorithm is compiled in, the parameter check
    is passed, and the status returned is not [NO_ERROR].  So a successful
    call, a rejected call and a call into a routine that is compiled out
    never release the caller's object. *)
Theorem free_routine_runs_exactly_on_failure {T : Types}
    {C : Collaborators} (cfg : Config) (input : option string) (length : N)
    (password : option string) :
  (forall params, releases_exactly_on_failure input length (DH_SUPPORT cfg)
     params (pemImportDhParameters cfg input length params)) /\
  (forall key, releases_exactly_on_failure input length (RSA_SUPPORT cfg)
     key (pemImportRsaPublicKey cfg input length key)) /\
  (forall key, releases_exactly_on_failure input length (RSA_SUPPORT cfg)
     key (pemImportRsaPrivateKey cfg input length password key)) /\
  (forall key, releases_exactly_on_failure input length (DSA_SUPPORT cfg)
     key (pemImportDsaPublicKey cfg input length key)) /\
  (forall key, releases_exactly_on_failure input length (DSA_SUPPORT cfg)
     key (pemImportDsaPrivateKey cfg input length password key)) /\
  (forall params, releases_exactly_on_failure input length (EC_SUPPORT cfg)
     params (pemImportEcParameters cfg input length params)) /\
  (forall key, releases_exactly_on_failure input length (EC_SUPPORT cfg)
     key (pemImportEcPublicKey cfg input length key)) /\
  (forall key, releases_exactly_on_failure input length (EC_SUPPORT cfg)
     key (pemImportEcPrivateKey cfg input length password key)) /\
  (forall key, releases_exactly_on_failure input length
     (ED25519_SUPPORT cfg || ED448_SUPPORT cfg)
     key (pemImportEddsaPublicKey cfg input length key)) /\
  (forall key, releases_exactly_on_failure input length
     (ED25519_SUPPORT cfg || ED448_SUPPORT cfg)
     key (pemImportEddsaPrivateKey cfg input length password key)).
Proof.
  split; [ prove_release_exactly (@pemImportDhParameters) |].
  split; [ prove_release_exactly (@pemImportRsaPublicKey) |].
  split; [ prove_release_exactly (@pemImportRsaPrivateKey) |].
  split; [ prove_release_exactly (@pemImportDsaPublicKey) |].
  split; [ prove_release_exactly (@pemImportDsaPrivateKey) |].
  split; [ prove_release_exactly (@pemImportEcParameters) |].
  split; [ prove_release_exactly (@pemImportEcPublicKey) |].
  split; [ prove_release_exactly (@pemImportEcPrivateKey) |].
  split; [ prove_release_exactly (@pemImportEddsaPublicKey) |].
  prove_release_exactly (@pemImportEddsaPrivateKey).
Qed.

(** X3.  A key import that returns [NO_ERROR] has made the import routine
    its last call but one, with that routine's status as its own, and
    [cryptoFreeMem] its last: success is never reported without the key
    having been imported and the buffer released. *)
Theorem success_ends_with_import {T : Types} {C : Collaborators}
    (cfg : Config) (input : option string) (length : N)
    (password : option string) :
  (forall key,
     let o := pemImportRsaPublicKey cfg input length key in
     is_ok (status o) = true ->
     closing 2 (events o)
     = [EvImport x509ImportRsaPublicKey_ (status o); EvFreeMem]) /\
  (forall key,
     let o := pemImportRsaPrivateKey cfg input length password key in
     is_ok (status o) = true ->
     closing 2 (events o)
     = [EvImport pkcs8ImportRsaPrivateKey_ (status o); EvFreeMem]) /\
  (forall key,
     let o := pemImportDsaPublicKey cfg input length key in
     is_ok (status o) = true ->
     closing 2 (events o)
     = [EvImport x509ImportDsaPublicKey_ (status o); EvFreeMem]) /\
  (forall key,
     let o := pemImportDsaPrivateKey cfg input length password key in
     is_ok (status o) = true ->
     closing 2 (events o)
     = [EvImport pkcs8ImportDsaPrivateKey_ (status o); EvFreeMem]) /\
  (forall params,
     let o := pemImportEcParameters cfg input length params in
     is_ok (status o) = true ->
     closing 2 (events o)
     = [EvImport x509ImportEcParameters_ (status o); EvFreeMem]) /\
  (forall key,
     let o := pemImportEcPublicKey cfg input length key in
     is_ok (status o) = true ->
     closing 2 (events o)
     = [EvImport x509ImportEcPublicKey_ (status o); EvFreeMem]) /\
  (forall key,
     let o := pemImportEcPrivateKey cfg input length password key in
     is_ok (status o) = true ->
     closing 2 (events o)
     = [EvImport pkcs8ImportEcPrivateKey_ (status o); EvFreeMem]) /\
  (forall key,
     let o := pemImportEddsaPublicKey cfg input length key in
     is_ok (status o) = true ->
     closing 2 (events o)
     = [EvImport x509ImportEddsaPublicKey_ (status o); EvFreeMem]) /\
  (forall key,
     let o := pemImportEddsaPrivateKey cfg input length password key in
     is_ok (status o) = true ->
     closing 2 (events o)
     = [EvImport pkcs8ImportEddsaPrivateKey_ (status o); EvFreeMem]).
Proof.
  split; [ prove_success_tail (@pemImportRsaPublicKey) |].
  split; [ prove_success_tail (@pemImportRsaPrivateKey) |].
  split; [ prove_success_tail (@pemImportDsaPublicKey) |].
  split; [ prove_success_tail (@pemImportDsaPrivateKey) |].
  split; [ prove_success_tail (@pemImportEcParameters) |].
  split; [ prove_success_tail (@pemImportEcPublicKey) |].
  split; [ prove_success_tail (@pemImportEcPrivateKey) |].
  split; [ prove_success_tail (@pemImportEddsaPublicKey) |].
  prove_success_tail (@pemImportEddsaPrivateKey).
Qed.

(** X3, witness: an unencrypted legacy container is imported. *)
Lemma success_ends_with_import_witness :
  let o := @pemImportRsaPrivateKey Sample.types Sample.collaborators
             all_enabled (Some Sample.rsa_pem) (Sample.len Sample.rsa_pem)
             None (Some None) in
  is_ok (status o) = true /\
  closing 2 (events o)
  = [EvImport pkcs8ImportRsaPrivateKey_ NO_ERROR; EvFreeMem].
Proof.
  cbv zeta. split; [ vm_compute; reflexivity |].
  exact (eq_trans (proj1 (proj2 (@success_ends_with_import Sample.types
    Sample.collaborators all_enabled (Some Sample.rsa_pem)
    (Sample.len Sample.rsa_pem) None)) (Some None) eq_refl) eq_refl).
Defined.

(** X4.  [pemImportEcParameters] releases the caller's domain parameters
    like the key imports do: a call turned away by the parameter check
    leaves them alone, and every other failing call ends with
    [ecFreeDomainParameters] and hands them back as it leaves them. *)
Theorem failing_ec_parameters_are_released {T : Types} {C : Collaborators}
    (cfg : Config) (input : option string) (length : N) :
  implemented cfg ->
  forall params, releases_on_failure input length ecFreeDomainParameters
    [EvFree ecFreeDomainParameters_] params
    (pemImportEcParameters cfg input length params).
Proof.
  intros (? & ? & ? & ? & ?).
  prove_release (@pemImportEcParameters).
Qed.

(** X4, witness: a certificate given to the EC-parameters import. *)
Lemma failing_ec_parameters_are_released_witness :
  let o := @pemImportEcParameters Sample.types Sample.collaborators
             all_enabled (Some Sample.other_pem)
             (Sample.len Sample.other_pem) (Some Sample.held) in
  implemented all_enabled /\
  closing 1 (events o) = [EvFree ecFreeDomainParameters_] /\
  exists k,
    object o = Some (@ecFreeDomainParameters _ Sample.collaborators k).
Proof.
  assert (Hc : implemented all_enabled) by (repeat split).
  split; [ exact Hc |].
  apply (proj2 (@failing_ec_parameters_are_released Sample.types
    Sample.collaborators all_enabled (Some Sample.other_pem)
    (Sample.len Sample.other_pem) Hc (Some Sample.held))); reflexivity.
Defined.

(** X5.  [pemImportEcParameters] sizes "EC PARAMETERS", "EC PRIVATE KEY",
    "PRIVATE KEY" and "PUBLIC KEY" in that order and stops at the first
    whose sizing pass succeeds, which is the label it decodes; when none
    succeeds it returns [ERROR_END_OF_FILE]. *)
Theorem ec_parameters_labels_in_priority_order {T : Types}
    {C : Collaborators} (cfg : Config) (input : option string)
    (length : N) :
  EC_SUPPORT cfg = true ->
  null_with_length input length = false ->
  forall params,
    let o := pemImportEcParameters cfg input length (Some params) in
    resolves_by_priority input length ec_parameters_labels o /\
    not_found_when_unmatched input length ec_parameters_labels o.
Proof.
  intros Hc Hn. prove_more_resolution (@pemImportEcParameters).
Qed.

(** X5, witness: the parameters are taken from a public key. *)
Lemma ec_parameters_labels_in_priority_order_witness :
  let o := @pemImportEcParameters Sample.types Sample.collaborators
             all_enabled (Some Sample.public_pem)
             (Sample.len Sample.public_pem) (Some None) in
  EC_SUPPORT all_enabled = true /\
  null_with_length (Some Sample.public_pem) (Sample.len Sample.public_pem)
  = false /\
  sizing_labels (events o) = ec_parameters_labels /\
  matched (events o) = Some "PUBLIC KEY".
Proof.
  cbv zeta.
  assert (Hn : null_with_length (Some Sample.public_pem)
                 (Sample.len Sample.public_pem) = false) by reflexivity.
  destruct (@ec_parameters_labels_in_priority_order Sample.types
    Sample.collaborators all_enabled (Some Sample.public_pem)
    (Sample.len Sample.public_pem) eq_refl Hn None) as [(Hs & Hm & _) _].
  split; [ reflexivity |]. split; [ exact Hn |].
  split.
  - exact (eq_trans (f_equal (map fst) Hs) eq_refl).
  - exact (eq_trans Hm eq_refl).
Defined.

(** X6.  The public-key imports, [pemImportEcParameters] and both key-type
    routines never test a header and never decrypt, and their parser
    receives the payload exactly as the filling pass wrote it; a legacy
    "EC PRIVATE KEY" container given to [pemImportEcParameters] is parsed
    as it is, encrypted or not.  [pemImportDhParameters] never tests a
    header nor decrypts either. *)
Theorem no_decryption_outside_private_imports {T : Types}
    {C : Collaborators} (cfg : Config) (input : option string)
    (length : N) :
  (forall key,
     let o := pemImportRsaPublicKey cfg input length key in
     never_decrypts o /\ parses_decoded_payload o) /\
  (forall key,
     let o := pemImportDsaPublicKey cfg input length key in
     never_decrypts o /\ parses_decoded_payload o) /\
  (forall key,
     let o := pemImportEcPublicKey cfg input length key in
     never_decrypts o /\ parses_decoded_payload o) /\
  (forall key,
     let o := pemImportEddsaPublicKey cfg input length key in
     never_decrypts o /\ parses_decoded_payload o) /\
  (forall params,
     let o := pemImportEcParameters cfg input length params in
     never_decrypts o /\ parses_decoded_payload o) /\
  (forall keyType,
     let o := pemGetPublicKeyType cfg input length keyType in
     never_decrypts o /\ parses_decoded_payload o) /\
  (forall keyType,
     let o := pemGetPrivateKeyType cfg input length keyType in
     never_decrypts o /\ parses_decoded_payload o) /\
  (forall params,
     never_decrypts (pemImportDhParameters cfg input length params)).
Proof.
  split; [ prove_no_decryption (@pemImportRsaPublicKey) |].
  split; [ prove_no_decryption (@pemImportDsaPublicKey) |].
  split; [ prove_no_decryption (@pemImportEcPublicKey) |].
  split; [ prove_no_decryption (@pemImportEddsaPublicKey) |].
  split; [ prove_no_decryption (@pemImportEcParameters) |].
  split; [ prove_no_decryption (@pemGetPublicKeyType) |].
  split; [ prove_no_decryption (@pemGetPrivateKeyType) |].
  prove_no_decryption (@pemImportDhParameters).
Qed.

(** X7.  [pemGetPublicKeyType] classifies a PKCS #1 container by its label
    alone: when the sizing pass for "RSA PUBLIC KEY" succeeds the call
    returns [NO_ERROR] and [X509_KEY_TYPE_RSA] after that one call, with no
    buffer and no parsing.  Anything else it does is for "PUBLIC KEY",
    whose payload is parsed: the key type is what [x509GetPublicKeyType]
    makes of the parsed identifier, and an identifier it does not know gives
    [ERROR_WRONG_IDENTIFIER]. *)
Theorem public_key_type_by_label {T : Types} {C : Collaborators}
    (cfg : Config) (input : option string) (length : N)
    (keyType : X509KeyType) :
  RSA_SUPPORT cfg = true ->
  null_with_length input length = false ->
  let o := pemGetPublicKeyType cfg input length (Some keyType) in
  (sizing_ok input length "RSA PUBLIC KEY" = true ->
   status o = NO_ERROR /\ object o = Some X509_KEY_TYPE_RSA /\
   events o = [EvDecode "RSA PUBLIC KEY" false NO_ERROR
                 (dec_output (pemDecodeFile input length "RSA PUBLIC KEY"
                                false false false))]) /\
  (forallb is_sizing (events o) = false ->
   sizing_ok input length "RSA PUBLIC KEY" = false /\
   matched (events o) = Some "PUBLIC KEY") /\
  (forall data e,
     In (EvParse x509ParseSubjectPublicKeyInfo_ data e) (events o) ->
     is_ok e = true ->
     exists n total info,
       x509ParseSubjectPublicKeyInfo data n = (e, total, info) /\
       object o
       = Some (x509GetPublicKeyType (spki_oid info) (spki_oidLen info)) /\
       status o
       = if is_unknown (x509GetPublicKeyType (spki_oid info)
                          (spki_oidLen info))
         then ERROR_WRONG_IDENTIFIER else NO_ERROR).
Proof.
  intros Hc Hn o.
  unfold sizing_ok, sizing_error, status, object, events.
  name_outcome o. evaluate (@pemGetPublicKeyType).
  all: split; [| split ].
  all: try (intros Hs; first [ discriminate Hs | split; reflexivity ]).
  all: try (intros _; split; [ reflexivity |]; split; [ reflexivity |];
            f_equal; f_equal;
            match goal with
            | H : is_ok ?e = true |- ?e = NO_ERROR =>
                destruct e; first [ reflexivity | discriminate H ]
            end).
  all: intros ? ? Hin He; cbn in Hin.
  all: repeat match goal with
              | Hx : _ \/ _ |- _ => destruct Hx as [Hx | Hx]
              end.
  all: try contradiction.
  all: try discriminate Hin.
  all: injection Hin as <- <-.
  all: try congruence.
  all: match goal with
       | Hp : x509ParseSubjectPublicKeyInfo _ ?n = (_, ?t, ?p) |- _ =>
           exists n, t, p; split; [ exact Hp |]
       end.
  all: split; [ reflexivity |].
  all: recall; first [ reflexivity | ok_is_no_error ].
Qed.

(** X7, witness: a SubjectPublicKeyInfo container is parsed and found to
    hold an RSA key. *)
Lemma public_key_type_by_label_witness :
  let o := @pemGetPublicKeyType Sample.types Sample.collaborators
             all_enabled (Some Sample.public_pem)
             (Sample.len Sample.public_pem) (Some X509_KEY_TYPE_UNKNOWN) in
  RSA_SUPPORT all_enabled = true /\
  null_with_length (Some Sample.public_pem) (Sample.len Sample.public_pem)
  = false /\
  forallb is_sizing (events o) = false /\
  matched (events o) = Some "PUBLIC KEY".
Proof.
  cbv zeta.
  assert (Hn : null_with_length (Some Sample.public_pem)
                 (Sample.len Sample.public_pem) = false) by reflexivity.
  assert (Hs : forallb is_sizing
                 (events (@pemGetPublicKeyType Sample.types
                    Sample.collaborators all_enabled
                    (Some Sample.public_pem) (Sample.len Sample.public_pem)
                    (Some X509_KEY_TYPE_UNKNOWN))) = false)
    by (vm_compute; reflexivity).
  split; [ reflexivity |]. split; [ exact Hn |]. split; [ exact Hs |].
  exact (proj2 (proj1 (proj2 (@public_key_type_by_label Sample.types
    Sample.collaborators all_enabled (Some Sample.public_pem)
    (Sample.len Sample.public_pem) X509_KEY_TYPE_UNKNOWN eq_refl Hn))
    Hs)).
Defined.

(** X8.  A key-type call that passes the parameter check always writes
    [*keyType], whatever it held, and returns [NO_ERROR] exactly when the
    type written is not [X509_KEY_TYPE_UNKNOWN]: a failing call never leaves
    a stale or a guessed key type behind. *)
Theorem key_type_known_iff_success {T : Types} {C : Collaborators}
    (cfg : Config) (input : option string) (length : N)
    (keyType : X509KeyType) :
  null_with_length input length = false ->
  known_iff_success (pemGetPublicKeyType cfg input length (Some keyType)) /\
  known_iff_success (pemGetPrivateKeyType cfg input length (Some keyType)).
Proof.
  intros Hn.
  split; [ prove_known_iff_success (@pemGetPublicKeyType) |].
  prove_known_iff_success (@pemGetPrivateKeyType).
Qed.

(** X8, witness: a certificate is no private key; the type held before is
    overwritten. *)
Lemma key_type_known_iff_success_witness :
  let o := @pemGetPrivateKeyType Sample.types Sample.collaborators
             all_enabled (Some Sample.other_pem)
             (Sample.len Sample.other_pem) (Some X509_KEY_TYPE_EC) in
  null_with_length (Some Sample.other_pem) (Sample.len Sample.other_pem)
  = false /\
  known_iff_success o /\ object o = Some X509_KEY_TYPE_UNKNOWN.
Proof.
  cbv zeta.
  assert (Hn : null_with_length (Some Sample.other_pem)
                 (Sample.len Sample.other_pem) = false) by reflexivity.
  split; [ exact Hn |].
  split; [| vm_compute; reflexivity ].
  exact (proj2 (@key_type_known_iff_success Sample.types
    Sample.collaborators all_enabled (Some Sample.other_pem)
    (Sample.len Sample.other_pem) X509_KEY_TYPE_EC Hn)).
Defined.

(** X9.  In every build the key-type routines size the legacy labels of
    the algorithms that are compiled in ("RSA PUBLIC KEY"; "RSA PRIVATE
    KEY", "DSA PRIVATE KEY", "EC PRIVATE KEY"), then the generic label, in
    that order up to the first success, and return [ERROR_END_OF_FILE] when
    none succeeds.  The legacy label of an algorithm that is compiled out
    is not recognised, and "ENCRYPTED PRIVATE KEY" never is. *)
Theorem key_type_labels_follow_the_build {T : Types} {C : Collaborators}
    (cfg : Config) (input : option string) (length : N)
    (keyType : X509KeyType) :
  null_with_length input length = false ->
  (let o := pemGetPublicKeyType cfg input length (Some keyType) in
   resolves_by_priority input length (public_type_labels cfg) o /\
   not_found_when_unmatched input length (public_type_labels cfg) o) /\
  (let o := pemGetPrivateKeyType cfg input length (Some keyType) in
   resolves_by_priority input length (private_type_labels cfg) o /\
   not_found_when_unmatched input length (private_type_labels cfg) o).
Proof.
  intros Hn.
  split; [ prove_type_resolution (@pemGetPublicKeyType) |].
  prove_type_resolution (@pemGetPrivateKeyType).
Qed.

(** X9, witness: an encrypted PKCS #8 container is not classified. *)
Lemma key_type_labels_follow_the_build_witness :
  let o := @pemGetPrivateKeyType Sample.types Sample.collaborators
             all_enabled (Some Sample.wrapped_pem)
             (Sample.len Sample.wrapped_pem) (Some X509_KEY_TYPE_UNKNOWN) in
  null_with_length (Some Sample.wrapped_pem) (Sample.len Sample.wrapped_pem)
  = false /\
  sizing_labels (events o) = private_type_labels all_enabled /\
  status o = ERROR_END_OF_FILE.
Proof.
  cbv zeta.
  assert (Hn : null_with_length (Some Sample.wrapped_pem)
                 (Sample.len Sample.wrapped_pem) = false) by reflexivity.
  destruct (proj2 (@key_type_labels_follow_the_build Sample.types
    Sample.collaborators all_enabled (Some Sample.wrapped_pem)
    (Sample.len Sample.wrapped_pem) X509_KEY_TYPE_UNKNOWN Hn))
    as [(Hs & _) Hf].
  split; [ exact Hn |].
  split.
  - exact (eq_trans (f_equal (map fst) Hs) eq_refl).
  - apply Hf. vm_compute. reflexivity.
Defined.

(** X10.  What a failed search for the label returns depends on the
    routine.  The single-label imports ([pemImportDhParameters] and the
    DSA, EC and EdDSA public-key imports) return the armor decoder's own
    status for the sizing pass, whatever it is; [pemImportRsaPublicKey],
    which has a second label to try, returns [ERROR_END_OF_FILE] whatever
    the decoder reported. *)
Theorem unmatched_status_by_routine {T : Types} {C : Collaborators}
    (cfg : Config) (input : option string) (length : N) :
  implemented cfg ->
  null_with_length input length = false ->
  (forall params, sizing_ok input length "DH PARAMETERS" = false ->
     status (pemImportDhParameters cfg input length (Some params))
     = sizing_error input length "DH PARAMETERS") /\
  (forall key, sizing_ok input length "PUBLIC KEY" = false ->
     status (pemImportDsaPublicKey cfg input length (Some key))
     = sizing_error input length "PUBLIC KEY") /\
  (forall key, sizing_ok input length "PUBLIC KEY" = false ->
     status (pemImportEcPublicKey cfg input length (Some key))
     = sizing_error input length "PUBLIC KEY") /\
  (forall key, sizing_ok input length "PUBLIC KEY" = false ->
     status (pemImportEddsaPublicKey cfg input length (Some key))
     = sizing_error input length "PUBLIC KEY") /\
  (forall key,
     not_found_when_unmatched input length rsa_public_labels
       (pemImportRsaPublicKey cfg input length (Some key))).
Proof.
  intros (? & ? & ? & ? & ?) Hn.
  split; [ prove_forwarded (@pemImportDhParameters) |].
  split; [ prove_forwarded (@pemImportDsaPublicKey) |].
  split; [ prove_forwarded (@pemImportEcPublicKey) |].
  split; [ prove_forwarded (@pemImportEddsaPublicKey) |].
  prove_forwarded (@pemImportRsaPublicKey).
Qed.

(** X10, witness: a text whose DH container has no END line makes the
    sample decoder report a syntax error, which the DH import returns. *)
Lemma unmatched_status_by_routine_witness :
  implemented all_enabled /\
  null_with_length (Some unterminated_dh_pem)
    (Sample.len unterminated_dh_pem) = false /\
  @sizing_ok Sample.types Sample.collaborators (Some unterminated_dh_pem)
    (Sample.len unterminated_dh_pem) "DH PARAMETERS" = false /\
  status (@pemImportDhParameters Sample.types Sample.collaborators
            all_enabled (Some unterminated_dh_pem)
            (Sample.len unterminated_dh_pem) (Some sample_dh))
  = Sample.syntax_error.
Proof.
  assert (Hc : implemented all_enabled) by (repeat split).
  assert (Hn : null_with_length (Some unterminated_dh_pem)
                 (Sample.len unterminated_dh_pem) = false) by reflexivity.
  assert (Hs : @sizing_ok Sample.types Sample.collaborators
                 (Some unterminated_dh_pem)
                 (Sample.len unterminated_dh_pem) "DH PARAMETERS" = false)
    by (vm_compute; reflexivity).
  split; [ exact Hc |]. split; [ exact Hn |]. split; [ exact Hs |].
  exact (eq_trans (proj1 (@unmatched_status_by_routine Sample.types
    Sample.collaborators all_enabled (Some unterminated_dh_pem)
    (Sample.len unterminated_dh_pem) Hc Hn) sample_dh Hs) eq_refl).
Defined.

(** X11.  Whenever a routine asks [cryptoAllocMem] for a buffer, a sizing
    pass has succeeded, and the size asked for is the length that sizing
    pass reported for the matched label. *)
Theorem buffer_has_the_reported_size {T : Types} {C : Collaborators}
    (cfg : Config) (input : option string) (length : N)
    (password : option string) :
  (forall params, allocates_reported_size input length
     (pemImportDhParameters cfg input length params)) /\
  (forall key, allocates_reported_size input length
     (pemImportRsaPublicKey cfg input length key)) /\
  (forall key, allocates_reported_size input length
     (pemImportRsaPrivateKey cfg input length password key)) /\
  (forall key, allocates_reported_size input length
     (pemImportDsaPublicKey cfg input length key)) /\
  (forall key, allocates_reported_size input length
     (pemImportDsaPrivateKey cfg input length password key)) /\
  (forall params, allocates_reported_size input length
     (pemImportEcParameters cfg input length params)) /\
  (forall key, allocates_reported_size input length
     (pemImportEcPublicKey cfg input length key)) /\
  (forall key, allocates_reported_size input length
     (pemImportEcPrivateKey cfg input length password key)) /\
  (forall key, allocates_reported_size input length
     (pemImportEddsaPublicKey cfg input length key)) /\
  (forall key, allocates_reported_size input length
     (pemImportEddsaPrivateKey cfg input length password key)) /\
  (forall keyType, allocates_reported_size input length
     (pemGetPublicKeyType cfg input length keyType)) /\
  (forall keyType, allocates_reported_size input length
     (pemGetPrivateKeyType cfg input length keyType)).
Proof.
  split; [ prove_reported_size (@pemImportDhParameters) |].
  split; [ prove_reported_size (@pemImportRsaPublicKey) |].
  split; [ prove_reported_size (@pemImportRsaPrivateKey) |].
  split; [ prove_reported_size (@pemImportDsaPublicKey) |].
  split; [ prove_reported_size (@pemImportDsaPrivateKey) |].
  split; [ prove_reported_size (@pemImportEcParameters) |].
  split; [ prove_reported_size (@pemImportEcPublicKey) |].
  split; [ prove_reported_size (@pemImportEcPrivateKey) |].
  split; [ prove_reported_size (@pemImportEddsaPublicKey) |].
  split; [ prove_reported_size (@pemImportEddsaPrivateKey) |].
  split; [ prove_reported_size (@pemGetPublicKeyType) |].
  prove_reported_size (@pemGetPrivateKeyType).
Qed.

(** X11, witness: the buffer for a PKCS #8 container. *)
Lemma buffer_has_the_reported_size_witness :
  let o := @pemImportRsaPrivateKey Sample.types Sample.collaborators
             all_enabled (Some Sample.pkcs8_pem)
             (Sample.len Sample.pkcs8_pem) None (Some None) in
  In 8 (alloc_sizes (events o)) /\
  exists l, matched (events o) = Some l /\
    8 = dec_outputLen
          (@pemDecodeFile Sample.types Sample.collaborators
             (Some Sample.pkcs8_pem) (Sample.len Sample.pkcs8_pem) l
             false false false).
Proof.
  cbv zeta.
  assert (Hin : In 8 (alloc_sizes (events
    (@pemImportRsaPrivateKey Sample.types Sample.collaborators
       all_enabled (Some Sample.pkcs8_pem) (Sample.len Sample.pkcs8_pem)
       None (Some None))))) by (vm_compute; left; reflexivity).
  split; [ exact Hin |].
  exact (proj1 (proj2 (proj2 (@buffer_has_the_reported_size Sample.types
    Sample.collaborators all_enabled (Some Sample.pkcs8_pem)
    (Sample.len Sample.pkcs8_pem) None))) (Some None) 8 Hin).
Defined.

(** X12.  A private-key import calls a decryption primitive at most once
    per call, and hands it the caller's password as it is, [NULL]
    included: no second attempt, no other password, and no check of its
    own that a password was given. *)
Theorem decrypts_at_most_once {T : Types} {C : Collaborators}
    (cfg : Config) (input : option string) (length : N)
    (password : option string) :
  (forall key, decrypts_once_with password
     (pemImportRsaPrivateKey cfg input length password key)) /\
  (forall key, decrypts_once_with password
     (pemImportDsaPrivateKey cfg input length password key)) /\
  (forall key, decrypts_once_with password
     (pemImportEcPrivateKey cfg input length password key)) /\
  (forall key, decrypts_once_with password
     (pemImportEddsaPrivateKey cfg input length password key)).
Proof.
  split; [ prove_decrypts_once (@pemImportRsaPrivateKey) |].
  split; [ prove_decrypts_once (@pemImportDsaPrivateKey) |].
  split; [ prove_decrypts_once (@pemImportEcPrivateKey) |].
  prove_decrypts_once (@pemImportEddsaPrivateKey).
Qed.

(** X13.  The public-key imports, [pemImportEcParameters] and
    [pemImportDhParameters] settle on the matched label too: after the
    sizing pass that succeeded no other label is sized, and the status
    returned is that of the first later stage that failed (allocation,
    filling pass, parsing, import), or [NO_ERROR] when none failed. *)
Theorem other_imports_settle_on_match {T : Types} {C : Collaborators}
    (cfg : Config) (input : option string) (length : N) :
  implemented cfg ->
  null_with_length input length = false ->
  (forall params, settles_on_match cfg
     (pemImportDhParameters cfg input length (Some params))) /\
  (forall key, settles_on_match cfg
     (pemImportRsaPublicKey cfg input length (Some key))) /\
  (forall key, settles_on_match cfg
     (pemImportDsaPublicKey cfg input length (Some key))) /\
  (forall params, settles_on_match cfg
     (pemImportEcParameters cfg input length (Some params))) /\
  (forall key, settles_on_match cfg
     (pemImportEcPublicKey cfg input length (Some key))) /\
  (forall key, settles_on_match cfg
     (pemImportEddsaPublicKey cfg input length (Some key))).
Proof.
  intros (? & ? & ? & ? & ?) Hn.
  split; [ prove_settled_more (@pemImportDhParameters) |].
  split; [ prove_settled_more (@pemImportRsaPublicKey) |].
  split; [ prove_settled_more (@pemImportDsaPublicKey) |].
  split; [ prove_settled_more (@pemImportEcParameters) |].
  split; [ prove_settled_more (@pemImportEcPublicKey) |].
  prove_settled_more (@pemImportEddsaPublicKey).
Qed.

(** X13, witness: a DH container with an empty body; the sequence parser
    fails and its status is returned. *)
Lemma other_imports_settle_on_match_witness :
  let o := @pemImportDhParameters Sample.types Sample.collaborators
             all_enabled (Some empty_dh_pem) (Sample.len empty_dh_pem)
             (Some sample_dh) in
  implemented all_enabled /\
  null_with_length (Some empty_dh_pem) (Sample.len empty_dh_pem) = false /\
  sizing_labels (events o) = ["DH PARAMETERS"] /\
  status o = Sample.syntax_error.
Proof.
  cbv zeta.
  set (o := @pemImportDhParameters Sample.types Sample.collaborators
              all_enabled (Some empty_dh_pem) (Sample.len empty_dh_pem)
              (Some sample_dh)).
  assert (Hc : implemented all_enabled) by (repeat split).
  assert (Hn : null_with_length (Some empty_dh_pem)
                 (Sample.len empty_dh_pem) = false) by reflexivity.
  split; [ exact Hc |]. split; [ exact Hn |].
  split; [ vm_compute; reflexivity |].
  set (rest := match after_match (events o) with
               | Some r => r
               | None => []
               end).
  assert (Hr : after_match (events o) = Some rest)
    by (vm_compute; reflexivity).
  destruct (proj1 (@other_imports_settle_on_match Sample.types
    Sample.collaborators all_enabled (Some empty_dh_pem)
    (Sample.len empty_dh_pem) Hc Hn) sample_dh rest Hr) as (_ & Hf & _).
  exact (eq_trans (Hf eq_refl) eq_refl).
Defined.

(** The label a routine matches is the first of its candidates whose
    sizing pass succeeds. *)
Lemma matched_is_first_match {T : Types} {C : Collaborators}
    (cfg : Config) (input : option string) (length : N) :
  implemented cfg ->
  null_with_length input length = false ->
  (forall password key,
     matched (events (pemImportRsaPrivateKey cfg input length password
                        (Some key)))
     = first_match input length rsa_private_labels) /\
  (forall password key,
     matched (events (pemImportDsaPrivateKey cfg input length password
                        (Some key)))
     = first_match input length dsa_private_labels) /\
  (forall password key,
     matched (events (pemImportEcPrivateKey cfg input length password
                        (Some key)))
     = first_match input length ec_private_labels) /\
  (forall password key,
     matched (events (pemImportEddsaPrivateKey cfg input length password
                        (Some key)))
     = first_match input length eddsa_private_labels) /\
  (forall key,
     matched (events (pemImportRsaPublicKey cfg input length (Some key)))
     = first_match input length rsa_public_labels) /\
  (forall keyType,
     matched (events (pemGetPublicKeyType cfg input length (Some keyType)))
     = first_match input length (public_type_labels cfg)) /\
  (forall keyType,
     matched (events (pemGetPrivateKeyType cfg input length (Some keyType)))
     = first_match input length (private_type_labels cfg)).
Proof.
  intros (? & ? & ? & ? & ?) Hn.
  split; [ prove_matched (@pemImportRsaPrivateKey) |].
  split; [ prove_matched (@pemImportDsaPrivateKey) |].
  split; [ prove_matched (@pemImportEcPrivateKey) |].
  split; [ prove_matched (@pemImportEddsaPrivateKey) |].
  split; [ prove_matched (@pemImportRsaPublicKey) |].
  split; [ prove_matched (@pemGetPublicKeyType) |].
  prove_matched (@pemGetPrivateKeyType).
Qed.

(** X14.  Classification and import agree on the label.  When
    [pemGetPrivateKeyType] matches the legacy label of an algorithm, the
    private-key import of that algorithm matches the same label on the
    same input; when it matches "PRIVATE KEY", so does every private-key
    import; when it matches nothing, a private-key import can match
    "ENCRYPTED PRIVATE KEY" only.  [pemGetPublicKeyType] and
    [pemImportRsaPublicKey] always match the same label. *)
Theorem key_type_and_import_match_alike {T : Types} {C : Collaborators}
    (cfg : Config) (input : option string) (length : N)
    (password : option string) (keyType : X509KeyType) :
  implemented cfg ->
  null_with_length input length = false ->
  let t := events (pemGetPrivateKeyType cfg input length (Some keyType)) in
  let rsa key :=
    events (pemImportRsaPrivateKey cfg input length password (Some key)) in
  let dsa key :=
    events (pemImportDsaPrivateKey cfg input length password (Some key)) in
  let ec key :=
    events (pemImportEcPrivateKey cfg input length password (Some key)) in
  let eddsa key :=
    events (pemImportEddsaPrivateKey cfg input length password (Some key)) in
  (matched t = Some "RSA PRIVATE KEY" ->
   forall key, matched (rsa key) = Some "RSA PRIVATE KEY") /\
  (matched t = Some "DSA PRIVATE KEY" ->
   forall key, matched (dsa key) = Some "DSA PRIVATE KEY") /\
  (matched t = Some "EC PRIVATE KEY" ->
   forall key, matched (ec key) = Some "EC PRIVATE KEY") /\
  (matched t = Some "PRIVATE KEY" ->
   (forall key, matched (rsa key) = Some "PRIVATE KEY") /\
   (forall key, matched (dsa key) = Some "PRIVATE KEY") /\
   (forall key, matched (ec key) = Some "PRIVATE KEY") /\
   (forall key, matched (eddsa key) = Some "PRIVATE KEY")) /\
  (matched t = None ->
   (forall key, matched (rsa key)
                = first_match input length ["ENCRYPTED PRIVATE KEY"]) /\
   (forall key, matched (dsa key)
                = first_match input length ["ENCRYPTED PRIVATE KEY"]) /\
   (forall key, matched (ec key)
                = first_match input length ["ENCRYPTED PRIVATE KEY"]) /\
   (forall key, matched (eddsa key)
                = first_match input length ["ENCRYPTED PRIVATE KEY"])) /\
  (forall key,
     matched (events (pemGetPublicKeyType cfg input length (Some keyType)))
     = matched (events (pemImportRsaPublicKey cfg input length (Some key)))).
Proof.
  intros Hc Hn t rsa dsa ec eddsa. subst t rsa dsa ec eddsa.
  destruct (matched_is_first_match cfg input length Hc Hn)
    as (Hrsa & Hdsa & Hec & Hed & Hpub & Htpub & Htpriv).
  rewrite Htpriv, Htpub.
  destruct Hc as (Er & Ed & Ee & _ & _).
  unfold private_type_labels, public_type_labels.
  rewrite Er, Ed, Ee.
  repeat split; intros; rewrite ?Hrsa, ?Hdsa, ?Hec, ?Hed, ?Hpub;
    repeat match goal with
           | H : first_match _ _ _ = _ |- _ => revert H
           end;
    unfold first_match, rsa_private_labels, dsa_private_labels,
      ec_private_labels, eddsa_private_labels, rsa_public_labels;
    cbn [find app];
    repeat match goal with
           | |- context [sizing_ok input ?n ?l] =>
               destruct (sizing_ok input n l)
           end;
    intros; first [ reflexivity | discriminate ].
Qed.

(** X14, witness: a legacy RSA container is classified and imported under
    the same label. *)
Lemma key_type_and_import_match_alike_witness :
  implemented all_enabled /\
  null_with_length (Some Sample.rsa_pem) (Sample.len Sample.rsa_pem)
  = false /\
  matched (events (@pemGetPrivateKeyType Sample.types Sample.collaborators
                     all_enabled (Some Sample.rsa_pem)
                     (Sample.len Sample.rsa_pem)
                     (Some X509_KEY_TYPE_UNKNOWN)))
  = Some "RSA PRIVATE KEY" /\
  matched (events (@pemImportRsaPrivateKey Sample.types
                     Sample.collaborators all_enabled
                     (Some Sample.rsa_pem) (Sample.len Sample.rsa_pem)
                     None (Some None)))
  = Some "RSA PRIVATE KEY".
Proof.
  assert (Hc : implemented all_enabled) by (repeat split).
  assert (Hn : null_with_length (Some Sample.rsa_pem)
                 (Sample.len Sample.rsa_pem) = false) by reflexivity.
  assert (Hm : matched (events (@pemGetPrivateKeyType Sample.types
                  Sample.collaborators all_enabled (Some Sample.rsa_pem)
                  (Sample.len Sample.rsa_pem)
                  (Some X509_KEY_TYPE_UNKNOWN)))
               = Some "RSA PRIVATE KEY") by (vm_compute; reflexivity).
  split; [ exact Hc |]. split; [ exact Hn |]. split; [ exact Hm |].
  exact (proj1 (@key_type_and_import_match_alike Sample.types
    Sample.collaborators all_enabled (Some Sample.rsa_pem)
    (Sample.len Sample.rsa_pem) None X509_KEY_TYPE_UNKNOWN Hc Hn) Hm None).
Defined.

(** X15.  A DH import that returns [NO_ERROR] has read the sequence, then
    the prime modulus from the start of its content, then the generator
    from where the modulus' tag ends, the remaining length being the
    [size_t] difference of the content length and that tag's total length
    (no bounds check is made on it); the parameters handed back are the
    two numbers read. *)
Theorem dh_fields_are_read_in_sequence {T : Types} {C : Collaborators}
    (cfg : Config) (input : option string) (length : N)
    (params : DhParameters) :
  let o := pemImportDhParameters cfg input length (Some params) in
  is_ok (status o) = true ->
  exists buffer n tag tag1 tag2 p g,
    asn1ReadSequence buffer n = (NO_ERROR, tag) /\
    asn1ReadMpi (tag_value tag) (tag_length tag) (params_p params)
    = (NO_ERROR, tag1, p) /\
    asn1ReadMpi (skipn (N.to_nat (tag_totalLength tag1)) (tag_value tag))
      (size_t_sub (tag_length tag) (tag_totalLength tag1)) (params_g params)
    = (NO_ERROR, tag2, g) /\
    object o = Some {| params_p := p; params_g := g |} /\
    parsed_payloads (events o)
    = [buffer; tag_value tag;
       skipn (N.to_nat (tag_totalLength tag1)) (tag_value tag)].
Proof.
  intros o. unfold status, object, events.
  name_outcome o. evaluate (@pemImportDhParameters).
  all: try discriminate.
  all: intros _.
  all: repeat match goal with
              | H : is_ok ?e = true |- _ =>
                  is_var e; destruct e; try discriminate H; clear H
              end.
  all: do 7 eexists.
  all: split; [ eassumption |].
  all: split; [ eassumption |].
  all: split; [ eassumption |].
  all: split; reflexivity.
Qed.

(** X15, witness: a DH container read by the sample parsers. *)
Lemma dh_fields_are_read_in_sequence_witness :
  let o := @pemImportDhParameters Sample.types Sample.collaborators
             all_enabled (Some (Sample.container "DH PARAMETERS" "MIIB"))
             (Sample.len (Sample.container "DH PARAMETERS" "MIIB"))
             (Some sample_dh) in
  is_ok (status o) = true /\
  List.length (parsed_payloads (events o)) = 3%nat.
Proof.
  cbv zeta.
  assert (Hs : is_ok (status (@pemImportDhParameters Sample.types
                  Sample.collaborators all_enabled
                  (Some (Sample.container "DH PARAMETERS" "MIIB"))
                  (Sample.len (Sample.container "DH PARAMETERS" "MIIB"))
                  (Some sample_dh))) = true) by (vm_compute; reflexivity).
  split; [ exact Hs |].
  destruct (@dh_fields_are_read_in_sequence Sample.types
    Sample.collaborators all_enabled
    (Some (Sample.container "DH PARAMETERS" "MIIB"))
    (Sample.len (Sample.container "DH PARAMETERS" "MIIB")) sample_dh Hs)
    as (buffer & n & tag & tag1 & tag2 & p & g & _ & _ & _ & _ & Hp).
  exact (eq_trans (f_equal (@List.length _) Hp) eq_refl).
Defined.
